(** * The inference pipeline template of the Step Functions data science SDK

    A shallow embedding of [stepfunctions/template/pipeline/inference.py]:
    the class [InferencePipeline], which chains seven SageMaker steps into a
    workflow definition and, on every [execute], patches job names, S3
    locations and hyperparameters into the input dictionaries of the steps.

    Python dictionaries and lists are objects with identity: [execute]
    copies only the outermost dictionary of its input template and mutates
    the nested ones in place.  The embedding therefore keeps an explicit
    object store, and Python values refer to dictionaries and lists by
    location. *)

From stdpp Require Import gmap strings list fin_maps pretty.

Open Scope string_scope.

(** ** Python values and the object store *)

Definition loc := nat.

(** Immutable values are carried directly; dictionaries and lists are
    referred to by their location in the store. *)
Inductive value :=
| VNone
| VBool (b : bool)
| VInt (z : Z)
| VStr (s : string)
| VRef (l : loc).

(** Only string keys occur in the dictionaries this module handles. *)
Inductive obj :=
| ODict (d : gmap string value)
| OList (xs : list value).

Abbreviation heap := (list obj).

#[global] Instance value_eq_dec : EqDecision value.
Proof. solve_decision. Defined.

(** A subscript is a string key or a literal non-negative index. *)
Inductive key :=
| KStr (s : string)
| KIdx (n : nat).

(** The exceptions the modelled fragment of Python can raise.  [Dangling]
    marks a reference to no object, which no Python program can build;
    [Unmodelled] marks the one operation left out: [str.format] applied to
    a dictionary or a list. *)
Inductive exn :=
| KeyError (k : key)
| IndexError
| TypeError
| AttributeError
| SdkError (msg : string)
| Dangling
| Unmodelled.

Inductive res (A : Type) :=
| Ok (a : A)
| Raise (e : exn).
Arguments Ok {A} a.
Arguments Raise {A} e.

(** Computations read and update the store and may raise. *)
Definition M (A : Type) : Type := heap -> res (A * heap).

Definition ret {A} (a : A) : M A := fun h => Ok (a, h).

Definition raise {A} (e : exn) : M A := fun _ => Raise e.

Definition bind {A B} (m : M A) (k : A -> M B) : M B :=
  fun h => match m h with
           | Ok (a, h') => k a h'
           | Raise e => Raise e
           end.

Notation "'let!' x ':=' m 'in' k" := (bind m (fun x => k))
  (at level 10, x name, m at level 100, k at level 200).
Notation "m1 ';;;' m2" := (bind m1 (fun _ => m2))
  (at level 100, m2 at level 200, right associativity).

(** [alloc o]: a fresh object. *)
Definition alloc (o : obj) : M value :=
  fun h => Ok (VRef (length h), (h ++ [o])%list).

(** [v[k]] *)
Definition subscript (v : value) (k : key) : M value :=
  fun h =>
    match v with
    | VRef l =>
        match h !! l with
        | Some (ODict d) =>
            match k with
            | KStr s => match d !! s with
                        | Some x => Ok (x, h)
                        | None => Raise (KeyError k)
                        end
            | KIdx _ => Raise (KeyError k)
            end
        | Some (OList xs) =>
            match k with
            | KIdx n => match xs !! n with
                        | Some x => Ok (x, h)
                        | None => Raise IndexError
                        end
            | KStr _ => Raise TypeError
            end
        | None => Raise Dangling
        end
    | VStr s =>
        match k with
        | KIdx n => match String.get n s with
                    | Some c => Ok (VStr (String c EmptyString), h)
                    | None => Raise IndexError
                    end
        | KStr _ => Raise TypeError
        end
    | VNone | VBool _ | VInt _ => Raise TypeError
    end.

(** [v[k] = x] for a string key [k] *)
Definition store_subscript (v : value) (k : string) (x : value) : M unit :=
  fun h =>
    match v with
    | VRef l =>
        match h !! l with
        | Some (ODict d) => Ok (tt, <[l := ODict (<[k := x]> d)]> h)
        | Some (OList _) => Raise TypeError
        | None => Raise Dangling
        end
    | _ => Raise TypeError
    end.

Fixpoint is_substring (s t : string) : bool :=
  String.prefix s t ||
  match t with
  | EmptyString => false
  | String _ t' => is_substring s t'
  end.

(** [k in v] for a string [k] *)
Definition contains (k : string) (v : value) : M bool :=
  fun h =>
    match v with
    | VRef l =>
        match h !! l with
        | Some (ODict d) => Ok (bool_decide (is_Some (d !! k)), h)
        | Some (OList xs) => Ok (bool_decide (VStr k ∈ xs), h)
        | None => Raise Dangling
        end
    | VStr s => Ok (is_substring k s, h)
    | VNone | VBool _ | VInt _ => Raise TypeError
    end.

(** The values a [for] loop over [v] visits: the elements of a list, the
    keys of a dictionary (in the order of the map, not of insertion), the
    characters of a string.  The loop of this module never changes the list
    it runs over, so the elements are taken once. *)
Definition iterate (v : value) : M (list value) :=
  fun h =>
    match v with
    | VRef l =>
        match h !! l with
        | Some (ODict d) => Ok (VStr <$> (map_to_list d).*1, h)
        | Some (OList xs) => Ok (xs, h)
        | None => Raise Dangling
        end
    | VStr s => Ok ((fun c => VStr (String c EmptyString)) <$> String.list_ascii_of_string s, h)
    | VNone | VBool _ | VInt _ => Raise TypeError
    end.

(** [v.copy()]: a new object with the same entries, sharing the values. *)
Definition copy (v : value) : M value :=
  fun h =>
    match v with
    | VRef l =>
        match h !! l with
        | Some o => alloc o h
        | None => Raise Dangling
        end
    | _ => Raise AttributeError
    end.

(** An argument of [str.format], formatted as [str] does: a string is
    taken as it is, [None], booleans and integers by their names and
    decimal digits.  Formatting a dictionary or a list (its [repr]) is not
    modelled. *)
Definition format_arg (v : value) : M string :=
  match v with
  | VStr s => ret s
  | VNone => ret "None"
  | VBool b => ret (if b then "True" else "False")
  | VInt z => ret (pretty z)
  | VRef _ => raise Unmodelled
  end.

Fixpoint for_each {A} (xs : list A) (body : A -> M unit) : M unit :=
  match xs with
  | [] => ret tt
  | x :: xs' => body x ;;; for_each xs' body
  end.


(** [v[k1][k2]...] *)
Fixpoint subscripts (v : value) (ks : list key) : M value :=
  match ks with
  | [] => ret v
  | k :: ks' => let! x := subscript v k in subscripts x ks'
  end.

(** [v[k1]...[kn][k] = x]: the target is evaluated after [x]. *)
Definition store_at (v : value) (ks : list key) (k : string) (x : value) : M unit :=
  let! d := subscripts v ks in
  store_subscript d k x.

(** ['prefix' + v] *)
Definition add_str (prefix : string) (v : value) : M value :=
  match v with
  | VStr s => ret (VStr (prefix ++ s))
  | _ => raise TypeError
  end.

Definition dict_of (entries : list (string * value)) : obj :=
  ODict (list_to_map entries).

Definition dquote : string := String (Ascii.ascii_of_nat 34) EmptyString.

(** ** The pipeline's steps *)

(** The members of [StepId] that the inference pipeline uses. *)
Inductive StepId :=
| Train
| ConfigureEndpoint
| Deploy
| TrainPreprocessor
| CreatePreprocessorModel
| TransformInput
| CreatePipelineModel.

#[global] Instance StepId_eq_dec : EqDecision StepId.
Proof. solve_decision. Defined.

(** A catcher attached to a state. *)
Record Catch := {
  error_equals : list string;
  next_step : string
}.

(** The keyword arguments [__init__] accepts ([__allowed_kwargs]); a
    missing one is [None]. *)
Record Kwargs := {
  kw_compression_type : option string;
  kw_content_type : option string;
  kw_pipeline_name : option string
}.

(** Objects of the SageMaker SDK and of boto3 that the pipeline only passes
    on are opaque handles. *)
Record handle := { handle_id : nat }.
Definition Model := handle.
Definition Transformer := handle.
Definition s3_input := handle.
Definition RecordSet := handle.
Definition Client := handle.

(** A [sagemaker.estimator.EstimatorBase]: the attributes and methods the
    pipeline uses.  [transformer] takes [instance_count], [instance_type]
    and [max_payload]. *)
Record Estimator := {
  train_instance_type : string;
  train_instance_count : Z;
  role : string;
  create_model : M Model;
  transformer : Z -> string -> Z -> M Transformer
}.

(** A [sagemaker.pipeline.PipelineModel]. *)
Record PipelineModel := {
  pipeline_role : string;
  pipeline_container_def : string -> M value
}.


(** One channel of training data: an S3 location or an [s3_input]. *)
Inductive Channel :=
| ChannelUri (s3_uri : string)
| ChannelS3Input (i : s3_input).

(** The forms the [inputs] argument can take (docstring of [__init__]). *)
Inductive Inputs :=
| InputsUri (s3_uri : string)
| InputsChannels (channels : gmap string Channel)
| InputsS3Input (i : s3_input)
| InputsRecordSet (r : RecordSet)
| InputsRecordSets (rs : list RecordSet).

(** Modelled from the spec: the step classes of [stepfunctions.steps] are
    not among the sources.  A step is the constructor call that made it,
    its [parameters] attribute and the catchers attached to it; the
    constructor attaches none. *)
Inductive StepCall :=
| TrainingStep (state_id : string) (estimator : Estimator) (job_name : string)
    (data : Inputs)
| ModelStep (state_id : string) (instance_type : string) (model : Model)
    (model_name : string)
| TransformStep (state_id : string) (transformer : Transformer)
    (job_name model_name : string) (data : Channel)
    (compression_type content_type : option string)
| EndpointConfigStep (state_id : string)
    (endpoint_config_name model_name : string) (initial_instance_count : Z)
    (instance_type : string)
| EndpointStep (state_id : string) (endpoint_name endpoint_config_name : string)
| Fail (state_id : string).

Record Step := {
  call : StepCall;
  parameters : value;
  catches : list Catch
}.

Definition state_id (s : Step) : string :=
  match call s with
  | TrainingStep i _ _ _ | ModelStep i _ _ _ | TransformStep i _ _ _ _ _ _
  | EndpointConfigStep i _ _ _ _ | EndpointStep i _ _ | Fail i => i
  end.

Definition is_Fail (s : Step) : bool :=
  match call s with
  | Fail _ => true
  | _ => false
  end.

(** [step.parameters = p] *)
Definition set_parameters (s : Step) (p : value) : Step :=
  {| call := call s; parameters := p; catches := catches s |}.

Record Chain := { steps : list Step }.

(** The attributes of [self] that [__init__] sets before the definition is
    built. *)
Record Attrs := {
  preprocessor : Estimator;
  estimator : Estimator;
  inputs : Inputs;
  s3_bucket : string;
  compression_type : option string;
  content_type : option string;
  pipeline_name : string
}.

(** Modelled from the spec: [stepfunctions.workflow.Workflow] is not among
    the sources; a workflow holds what its constructor is given. *)
Record Workflow := {
  name : string;
  workflow_definition : Chain;
  workflow_role : string;
  format_json : bool;
  workflow_client : option Client
}.

Record InferencePipeline := {
  attrs : Attrs;
  definition : Chain;
  input_template : value;
  workflow : Workflow;
  self_role : string;
  self_client : option Client
}.

(** Modelled from the spec: [Workflow.execute] is not among the sources; an
    execution is the workflow, the inputs and the name it was started
    with. *)
Record Execution := {
  execution_workflow : Workflow;
  execution_inputs : value;
  execution_name : value
}.

Definition workflow_execute (w : Workflow) (inputs name : value) : M Execution :=
  ret {| execution_workflow := w; execution_inputs := inputs;
         execution_name := name |}.

(** ** Reading the store

    What the store holds at a location, and the store after an assignment
    [l[k] = x], as total functions for stating and proving properties. *)

Definition dict_at (h : heap) (l : loc) : option (gmap string value) :=
  match h !! l with
  | Some (ODict d) => Some d
  | _ => None
  end.

Definition elems_at (h : heap) (l : loc) : option (list value) :=
  match h !! l with
  | Some (OList xs) => Some xs
  | _ => None
  end.

Definition field (h : heap) (l : loc) (k : string) : option value :=
  match dict_at h l with
  | Some d => d !! k
  | None => None
  end.

Definition is_dict (h : heap) (l : loc) : Prop := is_Some (dict_at h l).

Definition set_field (l : loc) (k : string) (x : value) (h : heap) : heap :=
  match dict_at h l with
  | Some d => <[l := ODict (<[k := x]> d)]> h
  | None => h
  end.

Definition set_fields (ls : list loc) (k : string) (x : value) (h : heap) : heap :=
  foldl (fun h' l => set_field l k x h') h ls.

(** [reads h v ks x]: in store [h], [v[k1]...[kn]] is [x]. *)
Inductive reads (h : heap) : value -> list key -> value -> Prop :=
| reads_nil v : reads h v [] v
| reads_str l k x ks y :
    field h l k = Some x -> reads h x ks y -> reads h (VRef l) (KStr k :: ks) y
| reads_idx l xs n x ks y :
    elems_at h l = Some xs -> xs !! n = Some x -> reads h x ks y ->
    reads h (VRef l) (KIdx n :: ks) y.

(** The objects of an input template that [execute] goes through. *)
Inductive slot :=
| Template
| StepInput (s : StepId)
| PreprocessorOutput
| PreprocessorDebug
| PreprocessorHyper
| PrimaryContainer
| TransformOutput
| TrainOutput
| TrainDebug
| TrainHyper
| Containers
| Container0
| Container1
| ProductionVariants.

#[global] Instance slot_eq_dec : EqDecision slot.
Proof. solve_decision. Defined.

Definition slots : list slot :=
  [Template; StepInput Train; StepInput ConfigureEndpoint; StepInput Deploy;
   StepInput TrainPreprocessor; StepInput CreatePreprocessorModel;
   StepInput TransformInput; StepInput CreatePipelineModel;
   PreprocessorOutput; PreprocessorDebug; PreprocessorHyper; PrimaryContainer;
   TransformOutput; TrainOutput; TrainDebug; TrainHyper; Containers;
   Container0; Container1; ProductionVariants].

(** Where these objects are in a store: the location of each slot, the
    locations of the production variants of the endpoint configuration, and
    the containers of the pipeline model after the first two. *)
Record layout := {
  place : slot -> loc;
  variants : list loc;
  more_containers : list value
}.

Definition objects (L : layout) : list loc :=
  ((place L <$> slots) ++ variants L)%list.

(** ** A concrete pipeline

    The member values of [StepId] and the job-name parameter as the SDKs
    declare them, and a store holding an input template of the shape the
    seven steps give it; the caller's hyperparameters are object 21. *)
Module Sample.

Definition StepId_value (s : StepId) : string :=
  match s with
  | Train => "Training"
  | ConfigureEndpoint => "Configure Endpoint"
  | Deploy => "Deploy"
  | TrainPreprocessor => "Train Preprocessor"
  | CreatePreprocessorModel => "Create Preprocessor Model"
  | TransformInput => "Transform Input"
  | CreatePipelineModel => "Create Pipeline Model"
  end.

Definition JOB_NAME_PARAM_NAME : string := "sagemaker_job_name".

Definition store : heap :=
  [ (* 0 *) dict_of [("Train Preprocessor", VRef 1);
                     ("Create Preprocessor Model", VRef 5);
                     ("Transform Input", VRef 7);
                     ("Training", VRef 9);
                     ("Create Pipeline Model", VRef 13);
                     ("Configure Endpoint", VRef 17);
                     ("Deploy", VRef 20)];
    (* 1 *) dict_of [("TrainingJobName", VStr "demo/preprocessor-source");
                     ("OutputDataConfig", VRef 2);
                     ("DebugHookConfig", VRef 3);
                     ("HyperParameters", VRef 4);
                     ("RoleArn", VStr "arn:aws:iam::1:role/sm")];
    (* 2 *) dict_of [("S3OutputPath", VStr "s3://default/")];
    (* 3 *) dict_of [("S3OutputPath", VStr "s3://default/debug")];
    (* 4 *) dict_of [("sagemaker_job_name", VStr "old");
                     ("sagemaker_program", VStr "prep.py")];
    (* 5 *) dict_of [("ModelName", VStr "demo"); ("PrimaryContainer", VRef 6)];
    (* 6 *) dict_of [("Image", VStr "sklearn"); ("ModelDataUrl", VStr "s3://x")];
    (* 7 *) dict_of [("ModelName", VStr "demo"); ("TransformJobName", VStr "demo");
                     ("TransformOutput", VRef 8)];
    (* 8 *) dict_of [("S3OutputPath", VStr "s3://default/transform")];
    (* 9 *) dict_of [("TrainingJobName", VStr "demo/estimator-source");
                     ("OutputDataConfig", VRef 10);
                     ("DebugHookConfig", VRef 11);
                     ("HyperParameters", VRef 12);
                     ("InputDataConfig", VNone)];
    (* 10 *) dict_of [("S3OutputPath", VStr "s3://default/")];
    (* 11 *) dict_of [("S3OutputPath", VStr "s3://default/debug")];
    (* 12 *) dict_of [("max_depth", VStr "5")];
    (* 13 *) dict_of [("ModelName", VStr "pipeline-model"); ("Containers", VRef 14);
                      ("ExecutionRoleArn", VStr "arn:aws:iam::1:role/sm")];
    (* 14 *) OList [VRef 15; VRef 16];
    (* 15 *) dict_of [("Image", VStr "sklearn"); ("ModelDataUrl", VStr "s3://p")];
    (* 16 *) dict_of [("Image", VStr "xgboost"); ("ModelDataUrl", VStr "s3://e")];
    (* 17 *) dict_of [("EndpointConfigName", VStr "demo");
                      ("ProductionVariants", VRef 18)];
    (* 18 *) OList [VRef 19];
    (* 19 *) dict_of [("ModelName", VStr "demo"); ("VariantName", VStr "AllTraffic")];
    (* 20 *) dict_of [("EndpointName", VStr "demo"); ("EndpointConfigName", VStr "demo")];
    (* 21 *) dict_of [("sagemaker_job_name", VStr "stale"); ("eta", VStr "0.1")] ].

(** The same store for a preprocessor configured without a debugger hook:
    its step has no ['DebugHookConfig']. *)
Definition store_without_debug_hook : heap :=
  <[1 := dict_of [("TrainingJobName", VStr "demo/preprocessor-source");
                  ("OutputDataConfig", VRef 2);
                  ("HyperParameters", VRef 4);
                  ("RoleArn", VStr "arn:aws:iam::1:role/sm")]]> store.

(** The same store for an estimator that has no hyperparameters: its step
    has no ['HyperParameters']. *)
Definition store_without_hyperparameters : heap :=
  <[9 := dict_of [("TrainingJobName", VStr "demo/estimator-source");
                  ("OutputDataConfig", VRef 10);
                  ("DebugHookConfig", VRef 11);
                  ("InputDataConfig", VNone)]]> store.

(** Where the objects of the template are in [store], with the caller's
    dictionary as the hyperparameters of the run. *)
Definition layout : layout :=
  {| place := fun s =>
       match s with
       | Template => 0
       | StepInput TrainPreprocessor => 1
       | PreprocessorOutput => 2
       | PreprocessorDebug => 3
       | PreprocessorHyper => 4
       | StepInput CreatePreprocessorModel => 5
       | PrimaryContainer => 6
       | StepInput TransformInput => 7
       | TransformOutput => 8
       | StepInput Train => 9
       | TrainOutput => 10
       | TrainDebug => 11
       | TrainHyper => 21
       | StepInput CreatePipelineModel => 13
       | Containers => 14
       | Container0 => 15
       | Container1 => 16
       | StepInput ConfigureEndpoint => 17
       | ProductionVariants => 18
       | StepInput Deploy => 20
       end;
     variants := [19];
     more_containers := [] |}.

Definition sdk_estimator (n : nat) : Estimator :=
  {| train_instance_type := "ml.m5.large";
     train_instance_count := 1;
     role := "arn:aws:iam::1:role/sm";
     create_model := ret {| handle_id := n |};
     transformer := fun _ _ _ => ret {| handle_id := S n |} |}.

Definition new_PipelineModel (name role : string) (models : list Model)
    : M PipelineModel :=
  ret {| pipeline_role := role;
         pipeline_container_def := fun _ =>
           let! c0 := alloc (dict_of [("Image", VStr "sklearn")]) in
           let! c1 := alloc (dict_of [("Image", VStr "xgboost")]) in
           alloc (OList [c0; c1]) |}.

Definition new_Model (model_data image : string) : M Model :=
  ret {| handle_id := 0 |}.

Definition step_parameters (c : StepCall) : M value :=
  alloc (dict_of []).

Definition _extract_input_template (c : Chain) : M value :=
  alloc (dict_of ((fun s => (state_id s, parameters s)) <$> steps c)).

Definition channels : gmap string Channel :=
  {[ "train" := ChannelUri "s3://data/train" ]}.

Definition the_workflow : Workflow :=
  {| name := "demo"; workflow_definition := {| steps := [] |};
     workflow_role := "arn:aws:iam::1:role/sfn"; format_json := true;
     workflow_client := None |}.

Definition pipeline : InferencePipeline :=
  {| attrs := {| preprocessor := sdk_estimator 1; estimator := sdk_estimator 3;
                 inputs := InputsChannels channels; s3_bucket := "bucket";
                 compression_type := None; content_type := None;
                 pipeline_name := "demo" |};
     definition := {| steps := [] |};
     input_template := VRef 0;
     workflow := the_workflow;
     self_role := "arn:aws:iam::1:role/sfn";
     self_client := None |}.

End Sample.

Section Pipeline.

Set Default Proof Using "Type".

(** [StepId.X.value], declared in [stepfunctions.template.pipeline.common]. *)
Variable StepId_value : StepId -> string.

(** [sagemaker.model.JOB_NAME_PARAM_NAME] *)
Variable JOB_NAME_PARAM_NAME : string.

(** [PipelineModel(name=, role=, models=)] and [Model(model_data=, image=)] *)
Variable new_PipelineModel : string -> string -> list Model -> M PipelineModel.
Variable new_Model : string -> string -> M Model.

(** The parameters a step constructor derives from its arguments through
    the SageMaker SDK. *)
Variable step_parameters : StepCall -> M value.

(** [WorkflowTemplate._extract_input_template], declared in
    [stepfunctions.template.pipeline.common]. *)
Variable _extract_input_template : Chain -> M value.

(** [inputs[k]]: only a dict can be subscripted by a string. *)
Definition subscript_inputs (i : Inputs) (k : string) : M Channel :=
  match i with
  | InputsChannels channels =>
      match channels !! k with
      | Some c => ret c
      | None => raise (KeyError (KStr k))
      end
  | InputsUri _ | InputsS3Input _ | InputsRecordSet _ | InputsRecordSets _ =>
      raise TypeError
  end.

Definition new_step (c : StepCall) : M Step :=
  let! p := step_parameters c in
  ret {| call := c; parameters := p; catches := [] |}.

Definition pipeline_model_config (instance_type : string)
    (pipeline_model : PipelineModel) : M value :=
  let! containers := pipeline_container_def pipeline_model instance_type in
  alloc (dict_of [("ModelName", VStr "pipeline-model");
                  ("Containers", containers);
                  ("ExecutionRoleArn", VStr (pipeline_role pipeline_model))]).

Definition build_workflow_definition (self : Attrs) : M Chain :=
  let default_name := pipeline_name self in
  let p_instance_type := train_instance_type (preprocessor self) in
  let p_instance_count := train_instance_count (preprocessor self) in
  let! preprocessor_train_step :=
    new_step (TrainingStep (StepId_value TrainPreprocessor) (preprocessor self)
                (default_name ++ "/preprocessor-source") (inputs self)) in
  let! preprocessor_model := create_model (preprocessor self) in
  let! preprocessor_model_step :=
    new_step (ModelStep (StepId_value CreatePreprocessorModel)
                p_instance_type preprocessor_model default_name) in
  let! tr := transformer (preprocessor self) p_instance_count
               p_instance_type 20 in
  let! train_data := subscript_inputs (inputs self) "train" in
  let! preprocessor_transform_step :=
    new_step (TransformStep (StepId_value TransformInput) tr default_name
                default_name train_data (compression_type self)
                (content_type self)) in
  let e_instance_type := train_instance_type (estimator self) in
  let e_instance_count := train_instance_count (estimator self) in
  let! training_step :=
    new_step (TrainingStep (StepId_value Train) (estimator self)
                (default_name ++ "/estimator-source") (inputs self)) in
  let! m1 := create_model (preprocessor self) in
  let! m2 := create_model (estimator self) in
  let! pipeline_model :=
    new_PipelineModel "PipelineModel" (role (estimator self)) [m1; m2] in
  let! pipeline_model_step :=
    new_step (ModelStep (StepId_value CreatePipelineModel) e_instance_type
                preprocessor_model default_name) in
  let! config := pipeline_model_config e_instance_type pipeline_model in
  let pipeline_model_step := set_parameters pipeline_model_step config in
  let! deployable_model := new_Model EmptyString EmptyString in
  let! endpoint_config_step :=
    new_step (EndpointConfigStep (StepId_value ConfigureEndpoint) default_name
                default_name e_instance_count e_instance_type) in
  let! deploy_step :=
    new_step (EndpointStep (StepId_value Deploy) default_name default_name) in
  ret {| steps := [preprocessor_train_step; preprocessor_model_step;
                   preprocessor_transform_step; training_step;
                   pipeline_model_step; endpoint_config_step; deploy_step] |}.

(** [InferencePipeline.__init__].  [timestamp] is what
    [self._generate_timestamp()] returns when it is called.  The
    constructors [Workflow(...)] and [WorkflowTemplate.__init__] are not
    among the sources and are taken to store their arguments: an exception
    of theirs, such as one from creating the default client, is outside
    this model. *)
Definition __init__ (timestamp : string) (preprocessor estimator : Estimator)
    (inputs : Inputs) (s3_bucket role : string) (client : option Client)
    (kwargs : Kwargs) : M InferencePipeline :=
  let pipeline_name :=
    match kw_pipeline_name kwargs with
    | Some (String c n) => String c n
    | Some EmptyString | None => "inference-pipeline-" ++ timestamp
    end in
  let self :=
    {| preprocessor := preprocessor; estimator := estimator; inputs := inputs;
       s3_bucket := s3_bucket;
       compression_type := kw_compression_type kwargs;
       content_type := kw_content_type kwargs;
       pipeline_name := pipeline_name |} in
  let! definition := build_workflow_definition self in
  let! input_template := _extract_input_template definition in
  let workflow :=
    {| name := pipeline_name; workflow_definition := definition;
       workflow_role := role; format_json := true;
       workflow_client := client |} in
  ret {| attrs := self; definition := definition;
         input_template := input_template; workflow := workflow;
         self_role := role; self_client := client |}.

Definition replace_sagemaker_job_name (config job_name : value) : M unit :=
  let! hyperparameters := subscript config (KStr "HyperParameters") in
  let! present := contains JOB_NAME_PARAM_NAME hyperparameters in
  if present then
    let! quoted := format_arg job_name in
    store_at config [KStr "HyperParameters"] JOB_NAME_PARAM_NAME
      (VStr (dquote ++ quoted ++ dquote))
  else ret tt.

(** ['s3://{s3_bucket}/{pipeline_name}/models'] with the bucket of [self]
    and the name of its workflow *)
Definition models_uri (self : InferencePipeline) : string :=
  "s3://" ++ s3_bucket (attrs self) ++ "/" ++ name (workflow self) ++ "/models".

(** [InferencePipeline.execute].  [timestamp] is what
    [self._generate_timestamp()] returns when it is called. *)
Definition execute (self : InferencePipeline) (timestamp : string)
    (job_name hyperparameters : value) : M Execution :=
  let step s := KStr (StepId_value s) in
  let! inputs := copy (input_template self) in
  match hyperparameters with
  | VNone => ret tt
  | _ => store_at inputs [step Train] "HyperParameters" hyperparameters
  end ;;;
  let job_name :=
    match job_name with
    | VNone => VStr ("inference-pipeline" ++ "-" ++ timestamp)
    | _ => job_name
    end in
  (* Configure preprocessor *)
  let! v := add_str "preprocessor-" job_name in
  store_at inputs [step TrainPreprocessor] "TrainingJobName" v ;;;
  store_at inputs [step TrainPreprocessor; KStr "OutputDataConfig"]
    "S3OutputPath" (VStr (models_uri self)) ;;;
  store_at inputs [step TrainPreprocessor; KStr "DebugHookConfig"]
    "S3OutputPath" (VStr (models_uri self ++ "/debug")) ;;;
  let! s3_uri := subscripts inputs [step TrainPreprocessor;
                    KStr "OutputDataConfig"; KStr "S3OutputPath"] in
  let! s3_uri := format_arg s3_uri in
  let! job := subscripts inputs [step TrainPreprocessor;
                 KStr "TrainingJobName"] in
  let! job := format_arg job in
  store_at inputs [step CreatePreprocessorModel; KStr "PrimaryContainer"]
    "ModelDataUrl" (VStr (s3_uri ++ "/" ++ job ++ "/output/model.tar.gz")) ;;;
  let! v := subscripts inputs [step TrainPreprocessor;
               KStr "TrainingJobName"] in
  store_at inputs [step CreatePreprocessorModel] "ModelName" v ;;;
  let! v := subscripts inputs [step CreatePreprocessorModel;
               KStr "ModelName"] in
  store_at inputs [step TransformInput] "ModelName" v ;;;
  let! v := subscripts inputs [step CreatePreprocessorModel;
               KStr "ModelName"] in
  store_at inputs [step TransformInput] "TransformJobName" v ;;;
  let! transform_job := add_str "preprocessor-transform-" job_name in
  let! transform_job := format_arg transform_job in
  store_at inputs [step TransformInput; KStr "TransformOutput"] "S3OutputPath"
    (VStr ("s3://" ++ s3_bucket (attrs self) ++ "/" ++ name (workflow self)
           ++ "/" ++ transform_job ++ "/transform")) ;;;
  let! config := subscript inputs (step TrainPreprocessor) in
  let! job := subscripts inputs [step TrainPreprocessor;
                 KStr "TrainingJobName"] in
  replace_sagemaker_job_name config job ;;;
  (* Configure training and model *)
  let! v := add_str "estimator-" job_name in
  store_at inputs [step Train] "TrainingJobName" v ;;;
  let! s3_uri := subscripts inputs [step TransformInput;
                    KStr "TransformOutput"; KStr "S3OutputPath"] in
  let! s3_uri := format_arg s3_uri in
  let! source :=
    alloc (dict_of [("S3DataDistributionType", VStr "FullyReplicated");
                    ("S3DataType", VStr "S3Prefix");
                    ("S3Uri", VStr s3_uri)]) in
  let! data_source := alloc (dict_of [("S3DataSource", source)]) in
  let! channel :=
    alloc (dict_of [("ChannelName", VStr "train");
                    ("DataSource", data_source)]) in
  let! channels := alloc (OList [channel]) in
  store_at inputs [step Train] "InputDataConfig" channels ;;;
  store_at inputs [step Train; KStr "OutputDataConfig"] "S3OutputPath"
    (VStr (models_uri self)) ;;;
  store_at inputs [step Train; KStr "DebugHookConfig"] "S3OutputPath"
    (VStr (models_uri self ++ "/debug")) ;;;
  store_at inputs [step CreatePipelineModel] "ModelName" job_name ;;;
  let! config := subscript inputs (step Train) in
  let! job := subscripts inputs [step Train; KStr "TrainingJobName"] in
  replace_sagemaker_job_name config job ;;;
  (* Configure pipeline model *)
  let! v := subscripts inputs [step CreatePreprocessorModel;
               KStr "PrimaryContainer"; KStr "ModelDataUrl"] in
  store_at inputs [step CreatePipelineModel; KStr "Containers"; KIdx 0]
    "ModelDataUrl" v ;;;
  let! s3_uri := subscripts inputs [step Train; KStr "OutputDataConfig";
                    KStr "S3OutputPath"] in
  let! s3_uri := format_arg s3_uri in
  let! job := subscripts inputs [step Train; KStr "TrainingJobName"] in
  let! job := format_arg job in
  store_at inputs [step CreatePipelineModel; KStr "Containers"; KIdx 1]
    "ModelDataUrl" (VStr (s3_uri ++ "/" ++ job ++ "/output/model.tar.gz")) ;;;
  (* Configure endpoint *)
  store_at inputs [step ConfigureEndpoint] "EndpointConfigName" job_name ;;;
  let! variants := subscripts inputs [step ConfigureEndpoint;
                      KStr "ProductionVariants"] in
  let! variants := iterate variants in
  for_each variants (fun variant =>
    store_subscript variant "ModelName" job_name) ;;;
  store_at inputs [step Deploy] "EndpointConfigName" job_name ;;;
  store_at inputs [step Deploy] "EndpointName" job_name ;;;
  workflow_execute (workflow self) inputs job_name.

(** ** The shape of an input template *)

(** The store after [replace_sagemaker_job_name] on a config whose
    hyperparameters are the dictionary at [l]. *)
Definition set_job_name (l : loc) (job : string) (h : heap) : heap :=
  match field h l JOB_NAME_PARAM_NAME with
  | Some _ => set_field l JOB_NAME_PARAM_NAME (VStr (dquote ++ job ++ dquote)) h
  | None => h
  end.

(** [shape h L]: store [h] holds at the places of [L] an input template
    with the entries [execute] goes through, every one of them an object
    of its own.  The dictionary at [TrainHyper] stands for the
    hyperparameters of the run; [linked] says the template already refers
    to it. *)
Record shape (h : heap) (L : layout) : Prop := {
  shape_separate : NoDup (objects L);
  shape_dicts : forall l,
    l ∈ objects L -> l ≠ place L Containers ->
    l ≠ place L ProductionVariants -> is_dict h l;
  shape_steps : forall s,
    field h (place L Template) (StepId_value s)
    = Some (VRef (place L (StepInput s)));
  shape_preprocessor_output :
    field h (place L (StepInput TrainPreprocessor)) "OutputDataConfig"
    = Some (VRef (place L PreprocessorOutput));
  shape_preprocessor_debug :
    field h (place L (StepInput TrainPreprocessor)) "DebugHookConfig"
    = Some (VRef (place L PreprocessorDebug));
  shape_preprocessor_hyper :
    field h (place L (StepInput TrainPreprocessor)) "HyperParameters"
    = Some (VRef (place L PreprocessorHyper));
  shape_primary_container :
    field h (place L (StepInput CreatePreprocessorModel)) "PrimaryContainer"
    = Some (VRef (place L PrimaryContainer));
  shape_transform_output :
    field h (place L (StepInput TransformInput)) "TransformOutput"
    = Some (VRef (place L TransformOutput));
  shape_train_output :
    field h (place L (StepInput Train)) "OutputDataConfig"
    = Some (VRef (place L TrainOutput));
  shape_train_debug :
    field h (place L (StepInput Train)) "DebugHookConfig"
    = Some (VRef (place L TrainDebug));
  shape_containers :
    field h (place L (StepInput CreatePipelineModel)) "Containers"
    = Some (VRef (place L Containers));
  shape_container_list :
    elems_at h (place L Containers)
    = Some (VRef (place L Container0) :: VRef (place L Container1)
            :: more_containers L);
  shape_variants :
    field h (place L (StepInput ConfigureEndpoint)) "ProductionVariants"
    = Some (VRef (place L ProductionVariants));
  shape_variant_list :
    elems_at h (place L ProductionVariants) = Some (VRef <$> variants L)
}.

Definition linked (h : heap) (L : layout) : Prop :=
  field h (place L (StepInput Train)) "HyperParameters"
  = Some (VRef (place L TrainHyper)).

(** The [hyperparameters] argument of a run: [None], with the template
    referring to its own hyperparameters, or the dictionary at
    [TrainHyper]. *)
Definition hyperparameters_of (h : heap) (L : layout) (hp : value) : Prop :=
  (hp = VNone /\ linked h L) \/ hp = VRef (place L TrainHyper).

(** The [job_name] argument of a run and the name the run goes by. *)
Definition job_name_of (timestamp : string) (job_name : value) (j : string) : Prop :=
  job_name = VStr j \/
  (job_name = VNone /\ j = "inference-pipeline" ++ "-" ++ timestamp).

(** ['s3://{s3_bucket}/{pipeline_name}/{transform_job}/transform'] for the
    transform job of run [j] *)
Definition transform_uri (self : InferencePipeline) (j : string) : string :=
  "s3://" ++ s3_bucket (attrs self) ++ "/" ++ name (workflow self) ++ "/"
  ++ ("preprocessor-transform-" ++ j) ++ "/transform".

(** ['{s3_uri}/{job}/output/model.tar.gz'] under the models location *)
Definition model_data_url (self : InferencePipeline) (job : string) : string :=
  models_uri self ++ "/" ++ job ++ "/output/model.tar.gz".

(** [patched self j L h e h']: what a run named [j] of [execute], started
    in store [h] on a template laid out as [L], leaves behind: the
    execution [e] and the store [h']. *)
Record patched (self : InferencePipeline) (j : string) (L : layout)
    (h : heap) (e : Execution) (h' : heap) : Prop := {
  patched_execution :
    e = {| execution_workflow := workflow self;
           execution_inputs := VRef (length h);
           execution_name := VStr j |};
  patched_inputs : dict_at h' (length h) = dict_at h (place L Template);
  patched_template :
    dict_at h' (place L Template) = dict_at h (place L Template);
  patched_shape : shape h' L;
  patched_linked : linked h' L;
  patched_preprocessor_job :
    field h' (place L (StepInput TrainPreprocessor)) "TrainingJobName"
    = Some (VStr ("preprocessor-" ++ j));
  patched_preprocessor_output :
    field h' (place L PreprocessorOutput) "S3OutputPath"
    = Some (VStr (models_uri self));
  patched_preprocessor_debug :
    field h' (place L PreprocessorDebug) "S3OutputPath"
    = Some (VStr (models_uri self ++ "/debug"));
  patched_primary_container :
    field h' (place L PrimaryContainer) "ModelDataUrl"
    = Some (VStr (model_data_url self ("preprocessor-" ++ j)));
  patched_preprocessor_model :
    field h' (place L (StepInput CreatePreprocessorModel)) "ModelName"
    = Some (VStr ("preprocessor-" ++ j));
  patched_transform_model :
    field h' (place L (StepInput TransformInput)) "ModelName"
    = Some (VStr ("preprocessor-" ++ j));
  patched_transform_job :
    field h' (place L (StepInput TransformInput)) "TransformJobName"
    = Some (VStr ("preprocessor-" ++ j));
  patched_transform_output :
    field h' (place L TransformOutput) "S3OutputPath"
    = Some (VStr (transform_uri self j));
  patched_train_job :
    field h' (place L (StepInput Train)) "TrainingJobName"
    = Some (VStr ("estimator-" ++ j));
  patched_train_channels : exists channels channel data_source source,
    field h' (place L (StepInput Train)) "InputDataConfig"
    = Some (VRef channels) /\
    elems_at h' channels = Some [VRef channel] /\
    dict_at h' channel
    = Some (list_to_map [("ChannelName", VStr "train");
                         ("DataSource", VRef data_source)]) /\
    dict_at h' data_source
    = Some (list_to_map [("S3DataSource", VRef source)]) /\
    dict_at h' source
    = Some (list_to_map [("S3DataDistributionType", VStr "FullyReplicated");
                         ("S3DataType", VStr "S3Prefix");
                         ("S3Uri", VStr (transform_uri self j))]);
  patched_train_output :
    field h' (place L TrainOutput) "S3OutputPath"
    = Some (VStr (models_uri self));
  patched_train_debug :
    field h' (place L TrainDebug) "S3OutputPath"
    = Some (VStr (models_uri self ++ "/debug"));
  patched_pipeline_model :
    field h' (place L (StepInput CreatePipelineModel)) "ModelName"
    = Some (VStr j);
  patched_container0 :
    field h' (place L Container0) "ModelDataUrl"
    = Some (VStr (model_data_url self ("preprocessor-" ++ j)));
  patched_container1 :
    field h' (place L Container1) "ModelDataUrl"
    = Some (VStr (model_data_url self ("estimator-" ++ j)));
  patched_endpoint_config :
    field h' (place L (StepInput ConfigureEndpoint)) "EndpointConfigName"
    = Some (VStr j);
  patched_variants : forall v,
    v ∈ variants L -> field h' v "ModelName" = Some (VStr j);
  patched_deploy_config :
    field h' (place L (StepInput Deploy)) "EndpointConfigName" = Some (VStr j);
  patched_deploy_endpoint :
    field h' (place L (StepInput Deploy)) "EndpointName" = Some (VStr j);
  patched_preprocessor_hyper :
    dict_at h' (place L PreprocessorHyper)
    = dict_at (set_job_name (place L PreprocessorHyper) ("preprocessor-" ++ j) h)
        (place L PreprocessorHyper);
  patched_train_hyper :
    dict_at h' (place L TrainHyper)
    = dict_at (set_job_name (place L TrainHyper) ("estimator-" ++ j) h)
        (place L TrainHyper)
}.

(** [inputs[k1]...[kn]] is [x], for the inputs execution [e] was started
    with, read in store [h]. *)
Definition input_of (e : Execution) (h : heap) (path : list key) (x : value) : Prop :=
  subscripts (execution_inputs e) path h = Ok (x, h).

(** The stores that calls of [execute] without hyperparameters lead to. *)
Inductive later_calls (self : InferencePipeline) (h : heap) : heap -> Prop :=
| later_calls_none : later_calls self h h
| later_calls_next h1 timestamp job_name e h2 :
    later_calls self h h1 ->
    (job_name = VNone \/ exists j, job_name = VStr j) ->
    execute self timestamp job_name VNone h1 = Ok (e, h2) ->
    later_calls self h h2.

(** An SDK call that returns in every store. *)
Definition succeeds {A} (m : M A) : Prop :=
  forall h, exists a h', m h = Ok (a, h').

(** The calls into the SageMaker SDK that constructing a pipeline from
    [preprocessor] and [estimator] makes all return. *)
Record sdk_returns (preprocessor estimator : Estimator) : Prop := {
  returns_parameters : forall c, succeeds (step_parameters c);
  returns_preprocessor_model : succeeds (create_model preprocessor);
  returns_transformer : forall count type payload,
    succeeds (transformer preprocessor count type payload);
  returns_estimator_model : succeeds (create_model estimator);
  returns_pipeline_model : forall name role models,
    succeeds (new_PipelineModel name role models);
  returns_container_def : forall name role models h pipeline_model h',
    new_PipelineModel name role models h = Ok (pipeline_model, h') ->
    forall type, succeeds (pipeline_container_def pipeline_model type);
  returns_model : forall model_data image, succeeds (new_Model model_data image);
  returns_template : forall c, succeeds (_extract_input_template c)
}.

(** [inputs] is not a dict with a ['train'] entry. *)
Definition lacks_train (inputs : Inputs) : Prop :=
  match inputs with
  | InputsChannels channels => channels !! "train" = None
  | _ => True
  end.

(** The states of the pipeline, in order. *)
Definition pipeline_steps : list StepId :=
  [TrainPreprocessor; CreatePreprocessorModel; TransformInput; Train;
   CreatePipelineModel; ConfigureEndpoint; Deploy].

(** The keys [execute] assigns in the dictionary at each slot. *)
Definition written (s : slot) : list string :=
  match s with
  | StepInput TrainPreprocessor => ["TrainingJobName"]
  | StepInput CreatePreprocessorModel => ["ModelName"]
  | StepInput TransformInput => ["ModelName"; "TransformJobName"]
  | StepInput Train => ["HyperParameters"; "TrainingJobName"; "InputDataConfig"]
  | StepInput CreatePipelineModel => ["ModelName"]
  | StepInput ConfigureEndpoint => ["EndpointConfigName"]
  | StepInput Deploy => ["EndpointConfigName"; "EndpointName"]
  | PreprocessorOutput | PreprocessorDebug | TransformOutput
  | TrainOutput | TrainDebug => ["S3OutputPath"]
  | PrimaryContainer | Container0 | Container1 => ["ModelDataUrl"]
  | PreprocessorHyper | TrainHyper => [JOB_NAME_PARAM_NAME]
  | Template | Containers | ProductionVariants => []
  end.

(** ** Properties of the store operations *)

Lemma bind_ok {A B} (m : M A) (k : A -> M B) h a h1 r :
  m h = Ok (a, h1) -> k a h1 = r -> bind m k h = r.
Proof. intros Hm Hk. unfold bind. by rewrite Hm. Qed.

Lemma dict_at_Some h l d : dict_at h l = Some d <-> h !! l = Some (ODict d).
Proof.
  unfold dict_at. destruct (h !! l) as [[|]|]; split; intros; simplify_eq; done.
Qed.

Lemma elems_at_Some h l xs : elems_at h l = Some xs <-> h !! l = Some (OList xs).
Proof.
  unfold elems_at. destruct (h !! l) as [[|]|]; split; intros; simplify_eq; done.
Qed.

Lemma is_dict_lt h l : is_dict h l -> l < length h.
Proof.
  intros [d Hd]. apply dict_at_Some in Hd. by eapply lookup_lt_Some.
Qed.

Lemma field_is_dict h l k x : field h l k = Some x -> is_dict h l.
Proof. unfold field, is_dict. destruct (dict_at h l); [eauto | done]. Qed.

Lemma lookup_set_field_ne l k x h l' : l ≠ l' -> set_field l k x h !! l' = h !! l'.
Proof.
  intros Hne. unfold set_field. destruct (dict_at h l); [|done].
  by apply list_lookup_insert_ne.
Qed.

Lemma dict_at_set_field_eq l k x h d :
  dict_at h l = Some d -> dict_at (set_field l k x h) l = Some (<[k := x]> d).
Proof.
  intros Hd. unfold set_field. rewrite Hd. apply dict_at_Some.
  apply list_lookup_insert_eq. apply is_dict_lt. by exists d.
Qed.

Lemma dict_at_set_field_ne l k x h l' :
  l ≠ l' -> dict_at (set_field l k x h) l' = dict_at h l'.
Proof. intros Hne. unfold dict_at. by rewrite lookup_set_field_ne. Qed.

Lemma elems_at_set_field l k x h l' :
  elems_at (set_field l k x h) l' = elems_at h l'.
Proof.
  destruct (decide (l = l')) as [<-|Hne].
  - unfold set_field. destruct (dict_at h l) as [d|] eqn:Hd; [|done].
    unfold elems_at at 1. rewrite list_lookup_insert_eq.
    + apply dict_at_Some in Hd. unfold elems_at. by rewrite Hd.
    + apply is_dict_lt. by exists d.
  - unfold elems_at. by rewrite lookup_set_field_ne.
Qed.

Lemma length_set_field l k x h : length (set_field l k x h) = length h.
Proof. unfold set_field. destruct (dict_at h l); [apply length_insert | done]. Qed.

Lemma is_dict_set_field l k x h l' : is_dict h l' -> is_dict (set_field l k x h) l'.
Proof.
  intros [d Hd]. destruct (decide (l = l')) as [<-|Hne].
  - eexists. by apply dict_at_set_field_eq.
  - exists d. by rewrite dict_at_set_field_ne.
Qed.

Lemma field_set_field_same l k x h : is_dict h l -> field (set_field l k x h) l k = Some x.
Proof.
  intros [d Hd]. unfold field. erewrite dict_at_set_field_eq by done.
  apply lookup_insert_eq.
Qed.

Lemma field_set_field_other l k x h l' k' r :
  l ≠ l' \/ k ≠ k' -> field h l' k' = r -> field (set_field l k x h) l' k' = r.
Proof.
  intros Hne <-. unfold field. destruct (decide (l = l')) as [<-|Hl].
  - destruct Hne as [|Hk]; [done|].
    destruct (dict_at h l) as [d|] eqn:Hd.
    + erewrite dict_at_set_field_eq by done. by apply lookup_insert_ne.
    + unfold set_field. rewrite Hd. by rewrite Hd.
  - by rewrite dict_at_set_field_ne.
Qed.

Lemma set_field_id l k x h : field h l k = Some x -> set_field l k x h = h.
Proof.
  unfold field, set_field. destruct (dict_at h l) as [d|] eqn:Hd; [|done].
  intros Hk. rewrite insert_id by done. apply list_insert_id.
  by apply dict_at_Some.
Qed.

Lemma length_alloc (h : heap) o : length (h ++ [o])%list = S (length h).
Proof. rewrite length_app. simpl. lia. Qed.

Lemma dict_at_alloc_old (h : heap) o l :
  l < length h -> dict_at (h ++ [o])%list l = dict_at h l.
Proof. intros Hl. unfold dict_at. by rewrite lookup_app_l. Qed.

Lemma elems_at_alloc_old (h : heap) o l r :
  l < length h -> elems_at h l = r -> elems_at (h ++ [o])%list l = r.
Proof. intros Hl <-. unfold elems_at. by rewrite lookup_app_l. Qed.

Lemma field_alloc_old (h : heap) o l k r :
  l < length h -> field h l k = r -> field (h ++ [o])%list l k = r.
Proof. intros Hl <-. unfold field. by rewrite dict_at_alloc_old. Qed.

Lemma is_dict_alloc (h : heap) o l : is_dict h l -> is_dict (h ++ [o])%list l.
Proof.
  intros Hd. unfold is_dict. rewrite dict_at_alloc_old; [done|].
  by apply is_dict_lt.
Qed.

Lemma dict_at_alloc_new (h : heap) d n :
  n = length h -> dict_at (h ++ [ODict d])%list n = Some d.
Proof. intros ->. apply dict_at_Some. by apply list_lookup_middle. Qed.

Lemma elems_at_alloc_new (h : heap) xs n :
  n = length h -> elems_at (h ++ [OList xs])%list n = Some xs.
Proof. intros ->. apply elems_at_Some. by apply list_lookup_middle. Qed.

Lemma field_alloc_new (h : heap) d n k r :
  n = length h -> d !! k = r -> field (h ++ [ODict d])%list n k = r.
Proof. intros Hn <-. unfold field. by rewrite dict_at_alloc_new. Qed.

(** Assignments to the same key of several dictionaries. *)

Lemma length_set_fields ls k x h : length (set_fields ls k x h) = length h.
Proof.
  revert h. induction ls as [|l ls IH]; intros h; simpl; [done|].
  by rewrite IH, length_set_field.
Qed.

Lemma is_dict_set_fields ls k x h l : is_dict h l -> is_dict (set_fields ls k x h) l.
Proof.
  revert h. induction ls as [|l0 ls IH]; intros h Hd; simpl; [done|].
  apply IH. by apply is_dict_set_field.
Qed.

Lemma elems_at_set_fields ls k x h l r :
  elems_at h l = r -> elems_at (set_fields ls k x h) l = r.
Proof.
  intros <-. revert h. induction ls as [|l0 ls IH]; intros h; simpl; [done|].
  by rewrite IH, elems_at_set_field.
Qed.

Lemma field_set_fields_other ls k x h l' k' r :
  l' ∉ ls \/ k ≠ k' -> field h l' k' = r -> field (set_fields ls k x h) l' k' = r.
Proof.
  intros Hne <-. revert h. induction ls as [|l0 ls IH]; intros h; simpl; [done|].
  rewrite IH.
  - apply field_set_field_other; [|done].
    destruct Hne as [Hl|Hk]; [left|by right].
    intros ->. apply Hl. by left.
  - destruct Hne as [Hl|Hk]; [left|by right].
    intros Hin. apply Hl. by right.
Qed.

Lemma field_set_fields_in ls k x h l :
  l ∈ ls -> Forall (is_dict h) ls -> field (set_fields ls k x h) l k = Some x.
Proof.
  revert h. induction ls as [|l0 ls IH]; intros h Hin Hall; simpl.
  - by apply elem_of_nil in Hin.
  - apply Forall_cons in Hall as [Hd0 Hall].
    destruct (decide (l ∈ ls)) as [Hl|Hl].
    + apply IH; [done|].
      eapply Forall_impl; [exact Hall|]. intros l1. apply is_dict_set_field.
    + apply elem_of_cons in Hin as [->|Hin]; [|done].
      apply field_set_fields_other; [by left|].
      by apply field_set_field_same.
Qed.

(** The store after [replace_sagemaker_job_name]. *)

Lemma length_set_job_name l j h : length (set_job_name l j h) = length h.
Proof.
  unfold set_job_name. destruct (field h l _); [apply length_set_field | done].
Qed.

Lemma is_dict_set_job_name l j h l' : is_dict h l' -> is_dict (set_job_name l j h) l'.
Proof.
  unfold set_job_name. destruct (field h l _); [apply is_dict_set_field | done].
Qed.

Lemma elems_at_set_job_name l j h l' r :
  elems_at h l' = r -> elems_at (set_job_name l j h) l' = r.
Proof.
  intros <-. unfold set_job_name.
  destruct (field h l _); [apply elems_at_set_field | done].
Qed.

Lemma field_set_job_name_other l j h l' k' r :
  l ≠ l' -> field h l' k' = r -> field (set_job_name l j h) l' k' = r.
Proof.
  intros Hne <-. unfold set_job_name.
  destruct (field h l _); [|done]. apply field_set_field_other; [by left | done].
Qed.

(** The primitives on well-formed targets. *)

Lemma subscript_field h l k x :
  field h l k = Some x -> subscript (VRef l) (KStr k) h = Ok (x, h).
Proof.
  unfold field. destruct (dict_at h l) as [d|] eqn:Hd; [|done].
  apply dict_at_Some in Hd. intros Hk. unfold subscript. by rewrite Hd, Hk.
Qed.

Lemma subscript_elem h l xs n x :
  elems_at h l = Some xs -> xs !! n = Some x ->
  subscript (VRef l) (KIdx n) h = Ok (x, h).
Proof.
  intros Hl%elems_at_Some Hn. unfold subscript. by rewrite Hl, Hn.
Qed.

Lemma reads_subscripts h v ks x : reads h v ks x -> subscripts v ks h = Ok (x, h).
Proof.
  induction 1 as [v|l k x ks y Hf _ IH|l xs n x ks y He Hn _ IH]; simpl.
  - done.
  - eapply bind_ok; [by apply subscript_field | exact IH].
  - eapply bind_ok; [by eapply subscript_elem | exact IH].
Qed.

Lemma store_subscript_dict h l k x :
  is_dict h l -> store_subscript (VRef l) k x h = Ok (tt, set_field l k x h).
Proof.
  intros [d Hd]. unfold store_subscript, set_field. rewrite Hd.
  apply dict_at_Some in Hd. by rewrite Hd.
Qed.

Lemma store_at_reads h v ks l k x :
  reads h v ks (VRef l) -> is_dict h l ->
  store_at v ks k x h = Ok (tt, set_field l k x h).
Proof.
  intros Hr Hd. unfold store_at.
  eapply bind_ok; [by apply reads_subscripts | by apply store_subscript_dict].
Qed.

Lemma contains_dict h l k :
  is_dict h l ->
  contains k (VRef l) h = Ok (bool_decide (is_Some (field h l k)), h).
Proof.
  intros [d Hd]. unfold contains, field. rewrite Hd.
  apply dict_at_Some in Hd. by rewrite Hd.
Qed.

Lemma copy_dict h l d :
  dict_at h l = Some d ->
  copy (VRef l) h = Ok (VRef (length h), (h ++ [ODict d])%list).
Proof. intros Hd%dict_at_Some. unfold copy. by rewrite Hd. Qed.

Lemma for_each_store (ls : list loc) k x h :
  Forall (is_dict h) ls ->
  for_each (VRef <$> ls) (fun v => store_subscript v k x) h
  = Ok (tt, set_fields ls k x h).
Proof.
  revert h. induction ls as [|l ls IH]; intros h Hall; simpl; [done|].
  apply Forall_cons in Hall as [Hd Hall].
  eapply bind_ok; [by apply store_subscript_dict|].
  apply IH. eapply Forall_impl; [exact Hall|].
  intros l1. apply is_dict_set_field.
Qed.

Lemma iterate_list h l xs :
  elems_at h l = Some xs -> iterate (VRef l) h = Ok (xs, h).
Proof. intros Hl%elems_at_Some. unfold iterate. by rewrite Hl. Qed.

Lemma replace_sagemaker_job_name_ok h c l j :
  field h c "HyperParameters" = Some (VRef l) -> is_dict h l ->
  replace_sagemaker_job_name (VRef c) (VStr j) h = Ok (tt, set_job_name l j h).
Proof.
  intros Hc Hl. unfold replace_sagemaker_job_name, set_job_name.
  eapply bind_ok; [by apply subscript_field|].
  eapply bind_ok; [by apply contains_dict|].
  destruct (field h l JOB_NAME_PARAM_NAME) as [old|] eqn:Hk.
  - rewrite bool_decide_eq_true_2 by eauto.
    eapply bind_ok; [reflexivity|].
    apply store_at_reads; [|done].
    eapply reads_str; [exact Hc | constructor].
  - rewrite bool_decide_eq_false_2; [done|].
    intros [y Hy]. discriminate.
Qed.

Lemma dict_at_set_field_other l k x h l' r :
  l ≠ l' -> dict_at h l' = r -> dict_at (set_field l k x h) l' = r.
Proof. intros Hne <-. by apply dict_at_set_field_ne. Qed.

Lemma dict_at_set_fields_other ls k x h l' r :
  l' ∉ ls -> dict_at h l' = r -> dict_at (set_fields ls k x h) l' = r.
Proof.
  intros Hne <-. revert h. induction ls as [|l0 ls IH]; intros h; simpl; [done|].
  rewrite IH.
  - apply dict_at_set_field_ne. intros ->. apply Hne. by left.
  - intros Hin. apply Hne. by right.
Qed.

Lemma dict_at_set_job_name_other l j h l' r :
  l ≠ l' -> dict_at h l' = r -> dict_at (set_job_name l j h) l' = r.
Proof.
  intros Hne <-. unfold set_job_name.
  destruct (field h l _); [by apply dict_at_set_field_ne | done].
Qed.

Lemma dict_at_set_job_name_same l j h0 h :
  dict_at h l = dict_at h0 l ->
  dict_at (set_job_name l j h) l = dict_at (set_job_name l j h0) l.
Proof.
  intros Heq. unfold set_job_name, field. rewrite Heq.
  destruct (dict_at h0 l) as [d|] eqn:Hd; [|congruence].
  destruct (d !! JOB_NAME_PARAM_NAME); [|congruence].
  rewrite (dict_at_set_field_eq _ _ _ h d) by done.
  by rewrite (dict_at_set_field_eq _ _ _ h0 d).
Qed.

Lemma dict_at_alloc_other (h : heap) o l r :
  l < length h -> dict_at h l = r -> dict_at (h ++ [o])%list l = r.
Proof. intros Hl <-. by apply dict_at_alloc_old. Qed.

Lemma alloc_at h o n : length h = n -> alloc o h = Ok (VRef n, (h ++ [o])%list).
Proof. by intros <-. Qed.

(** Layouts *)

Lemma slot_in_slots s : s ∈ slots.
Proof.
  destruct s as [|[]| | | | | | | | | | | |]; unfold slots; by repeat constructor.
Qed.

Lemma place_in_objects L s : place L s ∈ objects L.
Proof.
  unfold objects. apply elem_of_app. left.
  apply list_elem_of_fmap. exists s. split; [done | apply slot_in_slots].
Qed.

Lemma variant_in_objects L v : v ∈ variants L -> v ∈ objects L.
Proof. intros Hv. unfold objects. apply elem_of_app. by right. Qed.

Lemma place_ne L s s' : NoDup (objects L) -> s ≠ s' -> place L s ≠ place L s'.
Proof.
  intros Hnd Hne Heq. apply Hne.
  apply NoDup_app in Hnd as (Hnd & _ & _).
  destruct (list_elem_of_lookup_1 _ _ (slot_in_slots s)) as [i Hi].
  destruct (list_elem_of_lookup_1 _ _ (slot_in_slots s')) as [i' Hi'].
  assert (i = i') as <-.
  { eapply NoDup_lookup; [exact Hnd | |].
    - rewrite list_lookup_fmap, Hi. reflexivity.
    - rewrite list_lookup_fmap, Hi'. simpl. by rewrite Heq. }
  congruence.
Qed.

Lemma place_not_variant L s : NoDup (objects L) -> place L s ∉ variants L.
Proof.
  intros Hnd. apply NoDup_app in Hnd as (_ & Hdisj & _).
  apply Hdisj. apply list_elem_of_fmap. exists s. split; [done | apply slot_in_slots].
Qed.

Lemma place_is_dict h L s :
  shape h L -> s ≠ Containers -> s ≠ ProductionVariants -> is_dict h (place L s).
Proof.
  intros Hs H1 H2. apply (shape_dicts _ _ Hs).
  - apply place_in_objects.
  - by apply place_ne; [apply (shape_separate _ _ Hs)|].
  - by apply place_ne; [apply (shape_separate _ _ Hs)|].
Qed.

Lemma variant_is_dict h L v : shape h L -> v ∈ variants L -> is_dict h v.
Proof.
  intros Hs Hv. apply (shape_dicts _ _ Hs).
  - by apply variant_in_objects.
  - intros ->. by eapply place_not_variant; [apply (shape_separate _ _ Hs)|].
  - intros ->. by eapply place_not_variant; [apply (shape_separate _ _ Hs)|].
Qed.

Lemma place_lt h L s : shape h L -> place L s < length h.
Proof.
  intros Hs. destruct (decide (s = Containers)) as [->|H1].
  - pose proof (shape_container_list _ _ Hs) as He.
    apply elems_at_Some in He. by eapply lookup_lt_Some.
  - destruct (decide (s = ProductionVariants)) as [->|H2].
    + pose proof (shape_variant_list _ _ Hs) as He.
      apply elems_at_Some in He. by eapply lookup_lt_Some.
    + apply is_dict_lt. by apply place_is_dict.
Qed.

Lemma variant_lt h L v : shape h L -> v ∈ variants L -> v < length h.
Proof. intros Hs Hv. apply is_dict_lt. by eapply variant_is_dict. Qed.

(** ** Running [execute] step by step

    The tactics below read a [field], an element list or a dictionary of
    the store built so far through the assignments and allocations on top
    of the initial store. *)

Create Rewrite HintDb heap_length.
#[local] Hint Rewrite length_set_field length_set_fields length_set_job_name
  length_alloc : heap_length.

Ltac slot_lt :=
  autorewrite with heap_length;
  lazymatch goal with
  | Hs : shape ?h ?L |- context [place ?L ?s] =>
      generalize (place_lt h L s Hs); lia
  | Hs : shape ?h ?L, Hv : ?v ∈ variants ?L |- _ =>
      generalize (variant_lt h L v Hs Hv); lia
  | _ => lia
  end.

Ltac loc_ne :=
  lazymatch goal with
  | Hs : shape _ ?L |- place ?L _ ≠ place ?L _ =>
      apply place_ne; [exact (shape_separate _ _ Hs) | discriminate]
  | Hs : shape _ ?L, Hv : ?v ∈ variants ?L |- place ?L _ ≠ ?v =>
      let E := fresh in
      intros E; rewrite <- E in Hv;
      exact (place_not_variant _ _ (shape_separate _ _ Hs) Hv)
  | Hs : shape ?h ?L |- place ?L ?s ≠ _ =>
      generalize (place_lt h L s Hs); lia
  end.

Ltac not_variant :=
  lazymatch goal with
  | Hs : shape _ ?L |- place ?L _ ∉ variants ?L =>
      exact (place_not_variant _ _ (shape_separate _ _ Hs))
  | Hs : shape ?h ?L |- ?n ∉ variants ?L =>
      let Hin := fresh in
      intros Hin; generalize (variant_lt h L n Hs Hin); lia
  end.

Ltac key_ne := first [left; loc_ne | right; discriminate].

Ltac dict_tac :=
  lazymatch goal with
  | |- is_dict (set_field _ _ _ _) _ => apply is_dict_set_field; dict_tac
  | |- is_dict (set_fields _ _ _ _) _ => apply is_dict_set_fields; dict_tac
  | |- is_dict (set_job_name _ _ _) _ => apply is_dict_set_job_name; dict_tac
  | |- is_dict (_ ++ _)%list _ => apply is_dict_alloc; dict_tac
  | Hs : shape ?h ?L |- is_dict ?h _ =>
      first [ assumption
            | apply (place_is_dict h L _ Hs); discriminate
            | eapply (variant_is_dict h L _ Hs); eassumption ]
  end.

Ltac elems_tac :=
  lazymatch goal with
  | |- elems_at (set_field _ _ _ _) _ = _ =>
      rewrite elems_at_set_field; elems_tac
  | |- elems_at (set_fields _ _ _ _) _ = _ =>
      apply elems_at_set_fields; elems_tac
  | |- elems_at (set_job_name _ _ _) _ = _ =>
      apply elems_at_set_job_name; elems_tac
  | |- elems_at (_ ++ _)%list _ = _ =>
      first [ apply elems_at_alloc_new; autorewrite with heap_length; reflexivity
            | apply elems_at_alloc_old; [slot_lt | elems_tac] ]
  | _ => eassumption
  end.

Ltac field_tac :=
  lazymatch goal with
  | |- field (set_field ?l ?k _ _) ?l' ?k' = _ =>
      first [ constr_eq l l'; constr_eq k k';
              apply field_set_field_same; dict_tac
            | apply field_set_field_other; [key_ne | field_tac] ]
  | |- field (set_fields _ _ _ _) _ _ = _ =>
      first [ apply field_set_fields_in;
              [assumption | apply Forall_forall; intros; dict_tac]
            | apply field_set_fields_other;
              [first [left; not_variant | right; discriminate] | field_tac] ]
  | |- field (set_job_name _ _ _) _ _ = _ =>
      apply field_set_job_name_other; [loc_ne | field_tac]
  | |- field (_ ++ _)%list _ _ = _ =>
      first [ apply field_alloc_new;
              [autorewrite with heap_length; reflexivity | eauto]
            | apply field_alloc_old; [slot_lt | field_tac] ]
  | Hs : shape ?h _ |- field ?h _ (StepId_value _) = _ =>
      apply (shape_steps _ _ Hs)
  | _ => eassumption
  end.

Ltac dict_at_tac :=
  lazymatch goal with
  | |- dict_at (set_field _ _ _ _) _ = _ =>
      apply dict_at_set_field_other; [loc_ne | dict_at_tac]
  | |- dict_at (set_fields _ _ _ _) _ = _ =>
      apply dict_at_set_fields_other; [not_variant | dict_at_tac]
  | |- dict_at (set_job_name _ _ _) _ = _ =>
      first [ apply dict_at_set_job_name_other; [loc_ne | dict_at_tac]
            | apply dict_at_set_job_name_same; dict_at_tac ]
  | |- dict_at (_ ++ _)%list _ = _ =>
      first [ apply dict_at_alloc_new; autorewrite with heap_length; reflexivity
            | apply dict_at_alloc_other; [slot_lt | dict_at_tac] ]
  | _ => first [reflexivity | eassumption]
  end.

Ltac reads_tac :=
  lazymatch goal with
  | |- reads _ _ [] _ => apply reads_nil
  | |- reads _ (VRef _) (KStr _ :: _) _ =>
      eapply reads_str; [field_tac | reads_tac]
  | |- reads _ (VRef _) (KIdx _ :: _) _ =>
      eapply reads_idx; [elems_tac | reflexivity | reads_tac]
  end.

Ltac run_store :=
  eapply bind_ok; [eapply store_at_reads; [reads_tac | dict_tac] | cbv beta].
Ltac run_read :=
  eapply bind_ok; [apply reads_subscripts; reads_tac | cbv beta].
Ltac run_pure := eapply bind_ok; [reflexivity | cbv beta].
Ltac run_subscript :=
  eapply bind_ok; [apply subscript_field; field_tac | cbv beta].
Ltac run_replace :=
  eapply bind_ok;
  [eapply replace_sagemaker_job_name_ok; [field_tac | dict_tac] | cbv beta].
Ltac run_alloc :=
  eapply bind_ok;
  [apply alloc_at; autorewrite with heap_length; reflexivity | cbv beta].

(** A run of [execute] on a well-shaped template returns, and leaves the
    store patched. *)
Lemma execute_runs self timestamp job_name hp j h L :
  input_template self = VRef (place L Template) ->
  shape h L -> hyperparameters_of h L hp -> job_name_of timestamp job_name j ->
  exists e h',
    execute self timestamp job_name hp h = Ok (e, h') /\ patched self j L h e h'.
Proof.
  intros Htpl Hs Hhp Hj.
  destruct (place_is_dict h L Template Hs) as [dt Hdt]; [done..|].
  assert (Hsteps : forall s, dt !! StepId_value s
                             = Some (VRef (place L (StepInput s)))).
  { intros s. pose proof (shape_steps _ _ Hs s) as Hf.
    unfold field in Hf. by rewrite Hdt in Hf. }
  pose proof Hs as Hs'.
  destruct Hs' as [Hnd Hdicts Hst Hpo Hpd Hph Hpc Hto Hro Hrd Hcs Hcl Hvs Hvl].
  eexists _, _. split.
  - unfold execute. cbv beta zeta.
    replace (match job_name with
             | VNone => VStr ("inference-pipeline" ++ "-" ++ timestamp)
             | _ => job_name
             end) with (VStr j)
      by (by destruct Hj as [-> | [-> ->]]).
    rewrite Htpl.
    eapply bind_ok; [by apply copy_dict | cbv beta].
    eapply bind_ok.
    { instantiate (1 := set_field (place L (StepInput Train)) "HyperParameters"
                          (VRef (place L TrainHyper)) (h ++ [ODict dt])%list).
      instantiate (1 := tt).
      destruct Hhp as [[-> Hlink] | ->].
      - rewrite set_field_id; [done|]. unfold linked in Hlink. field_tac.
      - eapply store_at_reads; [reads_tac | dict_tac]. }
    cbv beta.
    (* preprocessor *)
    run_pure. run_store. run_store. run_store.
    run_read. run_pure. run_read. run_pure. run_store.
    run_read. run_store.
    run_read. run_store.
    run_read. run_store.
    run_pure. run_pure. run_store.
    run_subscript. run_read. run_replace.
    (* training and model *)
    run_pure. run_store.
    run_read. run_pure.
    run_alloc. run_alloc. run_alloc. run_alloc.
    run_store. run_store. run_store. run_store.
    run_subscript. run_read. run_replace.
    (* pipeline model *)
    run_read. run_store.
    run_read. run_pure. run_read. run_pure. run_store.
    (* endpoint *)
    run_store. run_read.
    eapply bind_ok; [apply iterate_list; elems_tac | cbv beta].
    eapply bind_ok;
      [apply for_each_store; apply Forall_forall; intros; dict_tac | cbv beta].
    run_store. run_store.
    reflexivity.
  - constructor.
    + reflexivity.
    + rewrite Hdt. dict_at_tac.
    + rewrite Hdt. dict_at_tac.
    + constructor.
      * done.
      * intros l Hl H1 H2. pose proof (Hdicts l Hl H1 H2). dict_tac.
      * intros s. field_tac.
      * field_tac.
      * field_tac.
      * field_tac.
      * field_tac.
      * field_tac.
      * field_tac.
      * field_tac.
      * field_tac.
      * elems_tac.
      * field_tac.
      * elems_tac.
    + unfold linked. field_tac.
    + field_tac.
    + field_tac.
    + field_tac.
    + field_tac.
    + field_tac.
    + field_tac.
    + field_tac.
    + field_tac.
    + field_tac.
    + eexists _, _, _, _. split; [field_tac|].
      split; [elems_tac|].
      split; [dict_at_tac|].
      split; dict_at_tac.
    + field_tac.
    + field_tac.
    + field_tac.
    + field_tac.
    + field_tac.
    + field_tac.
    + intros v Hv. field_tac.
    + field_tac.
    + field_tac.
    + dict_at_tac.
    + dict_at_tac.
Qed.

(** ** What a run leaves in the execution inputs *)

Lemma append_assoc (a b c : string) : (a ++ b) ++ c = a ++ (b ++ c).
Proof.
  induction a as [|x a IH]; [reflexivity|].
  change (String x ((a ++ b) ++ c) = String x (a ++ (b ++ c))).
  by rewrite IH.
Qed.

Lemma model_data_url_preprocessor self j :
  model_data_url self ("preprocessor-" ++ j)
  = "s3://" ++ s3_bucket (attrs self) ++ "/" ++ name (workflow self)
    ++ "/models/preprocessor-" ++ j ++ "/output/model.tar.gz".
Proof. unfold model_data_url, models_uri. by rewrite !append_assoc. Qed.

Lemma model_data_url_estimator self j :
  model_data_url self ("estimator-" ++ j)
  = "s3://" ++ s3_bucket (attrs self) ++ "/" ++ name (workflow self)
    ++ "/models/estimator-" ++ j ++ "/output/model.tar.gz".
Proof. unfold model_data_url, models_uri. by rewrite !append_assoc. Qed.

Lemma models_debug_uri self :
  models_uri self ++ "/debug"
  = "s3://" ++ s3_bucket (attrs self) ++ "/" ++ name (workflow self)
    ++ "/models/debug".
Proof. unfold models_uri. by rewrite !append_assoc. Qed.

Lemma transform_uri_eq self j :
  transform_uri self j
  = "s3://" ++ s3_bucket (attrs self) ++ "/" ++ name (workflow self)
    ++ "/preprocessor-transform-" ++ j ++ "/transform".
Proof. unfold transform_uri. by rewrite !append_assoc. Qed.

(** The inputs of the execution refer to the step dictionaries of the
    template. *)
Lemma input_of_step self j L h e h' s ks x :
  patched self j L h e h' ->
  reads h' (VRef (place L (StepInput s))) ks x ->
  input_of e h' (KStr (StepId_value s) :: ks) x.
Proof.
  intros Hp Hr. unfold input_of. apply reads_subscripts.
  rewrite (patched_execution _ _ _ _ _ _ Hp). simpl.
  eapply reads_str; [|exact Hr].
  unfold field. rewrite (patched_inputs _ _ _ _ _ _ Hp).
  rewrite <- (patched_template _ _ _ _ _ _ Hp).
  apply (shape_steps _ _ (patched_shape _ _ _ _ _ _ Hp)).
Qed.

Lemma template_of_step self j L h e h' s ks x :
  patched self j L h e h' ->
  reads h' (VRef (place L (StepInput s))) ks x ->
  subscripts (VRef (place L Template)) (KStr (StepId_value s) :: ks) h'
  = Ok (x, h').
Proof.
  intros Hp Hr. apply reads_subscripts.
  eapply reads_str; [|exact Hr].
  apply (shape_steps _ _ (patched_shape _ _ _ _ _ _ Hp)).
Qed.

Ltac open_patched Hp :=
  let Hs := fresh "Hshape" in
  let Hp' := fresh "Hpatched" in
  pose proof (patched_shape _ _ _ _ _ _ Hp) as Hs; destruct Hs;
  pose proof Hp as Hp'; destruct Hp'.

Ltac path_tac :=
  lazymatch goal with
  | |- reads _ _ [] _ => apply reads_nil
  | |- reads _ _ (KStr _ :: _) _ => eapply reads_str; [eassumption | path_tac]
  | |- reads _ _ (KIdx _ :: _) _ =>
      eapply reads_idx; [eassumption | reflexivity | path_tac]
  end.

Ltac input_tac Hp := eapply input_of_step; [exact Hp | path_tac].

(** C1.  On a template in [shape] (it has the entries [execute]
    subscripts, each an object of its own, and the hyperparameters are
    [None] or a dictionary apart from them), a call
    [execute(job_name, hyperparameters)] with a string [job_name] returns
    an execution of the workflow started under that name,
    on inputs in which the TrainPreprocessor step's [TrainingJobName] is
    ['preprocessor-' + job_name] and the Train step's [TrainingJobName] is
    ['estimator-' + job_name]; when [hyperparameters] is not [None], the
    Train step's [HyperParameters] is the provided dictionary itself, whose
    entries are the provided ones up to the job-name parameter. *)
Theorem execute_patches_run_parameters self timestamp j hp h L :
  input_template self = VRef (place L Template) ->
  shape h L -> hyperparameters_of h L hp ->
  exists e h',
    execute self timestamp (VStr j) hp h = Ok (e, h') /\
    execution_workflow e = workflow self /\
    execution_name e = VStr j /\
    input_of e h' [KStr (StepId_value TrainPreprocessor); KStr "TrainingJobName"]
      (VStr ("preprocessor-" ++ j)) /\
    input_of e h' [KStr (StepId_value Train); KStr "TrainingJobName"]
      (VStr ("estimator-" ++ j)) /\
    (hp <> VNone ->
     input_of e h' [KStr (StepId_value Train); KStr "HyperParameters"] hp /\
     forall l, hp = VRef l ->
       dict_at h' l = dict_at (set_job_name l ("estimator-" ++ j) h) l).
Proof.
  intros Htpl Hs Hhp.
  destruct (execute_runs self timestamp (VStr j) hp j h L) as (e & h' & Hrun & Hp);
    [done | done | done | by left |].
  exists e, h'. split; [exact Hrun|].
  pose proof (patched_linked _ _ _ _ _ _ Hp) as Hlink. unfold linked in Hlink.
  pose proof (patched_train_hyper _ _ _ _ _ _ Hp) as Hhyper.
  pose proof (patched_execution _ _ _ _ _ _ Hp) as He.
  split; [by rewrite He|]. split; [by rewrite He|].
  open_patched Hp.
  split; [|split].
  - input_tac Hp.
  - input_tac Hp.
  - intros Hnone. destruct Hhp as [[-> _] | ->]; [done|]. split.
    + input_tac Hp.
    + intros l [= <-]. exact Hhyper.
Qed.

(** The elements of the template's list of production variants. *)
Lemma production_variant_inv self h L n variant :
  input_template self = VRef (place L Template) -> shape h L ->
  subscripts (input_template self)
    [KStr (StepId_value ConfigureEndpoint); KStr "ProductionVariants"; KIdx n] h
  = Ok (variant, h) ->
  exists v, variant = VRef v /\ variants L !! n = Some v.
Proof.
  intros Htpl Hs Hsub. rewrite Htpl in Hsub. simpl in Hsub.
  unfold bind in Hsub.
  rewrite (subscript_field _ _ _ _ (shape_steps _ _ Hs ConfigureEndpoint)) in Hsub.
  rewrite (subscript_field _ _ _ _ (shape_variants _ _ Hs)) in Hsub.
  pose proof (shape_variant_list _ _ Hs) as Hl. apply elems_at_Some in Hl.
  unfold subscript in Hsub. rewrite Hl in Hsub.
  rewrite list_lookup_fmap in Hsub.
  destruct (variants L !! n) as [v|]; simpl in Hsub; [|discriminate].
  injection Hsub as <-. eauto.
Qed.

(** C3.  On a template in [shape], a run named [job_name] returns, and
    in its inputs the names propagated across dependent steps agree: TransformInput's [ModelName] and
    [TransformJobName] and CreatePreprocessorModel's [ModelName] are
    TrainPreprocessor's [TrainingJobName], ['preprocessor-' + job_name];
    CreatePipelineModel's [ModelName], ConfigureEndpoint's
    [EndpointConfigName], the [ModelName] of every production variant the
    template has (the list itself is the one the template had) and Deploy's
    [EndpointConfigName] and [EndpointName] are [job_name]. *)
Theorem execute_propagates_job_names self timestamp j hp h L :
  input_template self = VRef (place L Template) ->
  shape h L -> hyperparameters_of h L hp ->
  exists e h',
    execute self timestamp (VStr j) hp h = Ok (e, h') /\
    input_of e h' [KStr (StepId_value TrainPreprocessor); KStr "TrainingJobName"]
      (VStr ("preprocessor-" ++ j)) /\
    input_of e h' [KStr (StepId_value CreatePreprocessorModel); KStr "ModelName"]
      (VStr ("preprocessor-" ++ j)) /\
    input_of e h' [KStr (StepId_value TransformInput); KStr "ModelName"]
      (VStr ("preprocessor-" ++ j)) /\
    input_of e h' [KStr (StepId_value TransformInput); KStr "TransformJobName"]
      (VStr ("preprocessor-" ++ j)) /\
    input_of e h' [KStr (StepId_value CreatePipelineModel); KStr "ModelName"]
      (VStr j) /\
    input_of e h' [KStr (StepId_value ConfigureEndpoint);
                   KStr "EndpointConfigName"] (VStr j) /\
    (forall n variant,
       subscripts (input_template self)
         [KStr (StepId_value ConfigureEndpoint); KStr "ProductionVariants";
          KIdx n] h = Ok (variant, h) ->
       input_of e h' [KStr (StepId_value ConfigureEndpoint);
                      KStr "ProductionVariants"; KIdx n] variant /\
       input_of e h' [KStr (StepId_value ConfigureEndpoint);
                      KStr "ProductionVariants"; KIdx n; KStr "ModelName"]
         (VStr j)) /\
    input_of e h' [KStr (StepId_value Deploy); KStr "EndpointConfigName"]
      (VStr j) /\
    input_of e h' [KStr (StepId_value Deploy); KStr "EndpointName"] (VStr j).
Proof.
  intros Htpl Hs Hhp.
  destruct (execute_runs self timestamp (VStr j) hp j h L) as (e & h' & Hrun & Hp);
    [done | done | done | by left |].
  exists e, h'. split; [exact Hrun|].
  pose proof (patched_variants _ _ _ _ _ _ Hp) as Hvariants.
  assert (Hvs : forall n variant,
            subscripts (input_template self)
              [KStr (StepId_value ConfigureEndpoint); KStr "ProductionVariants";
               KIdx n] h = Ok (variant, h) ->
            exists v, variant = VRef v /\ variants L !! n = Some v /\
                      field h' v "ModelName" = Some (VStr j)).
  { intros n variant Hsub.
    destruct (production_variant_inv self h L n variant Htpl Hs Hsub)
      as (v & -> & Hn).
    exists v. repeat split; [done|].
    apply Hvariants. by eapply list_elem_of_lookup_2. }
  clear Hs. open_patched Hp.
  repeat split; try input_tac Hp.
  - destruct (Hvs n variant) as (v & -> & Hn & _); [done|].
    eapply input_of_step; [exact Hp|].
    eapply reads_str; [eassumption|].
    eapply reads_idx; [eassumption | | apply reads_nil].
    by rewrite list_lookup_fmap, Hn.
  - destruct (Hvs n variant) as (v & -> & Hn & Hname); [done|].
    eapply input_of_step; [exact Hp|].
    eapply reads_str; [eassumption|].
    eapply reads_idx; [eassumption | |].
    + by rewrite list_lookup_fmap, Hn.
    + eapply reads_str; [exact Hname | apply reads_nil].
Qed.

(** C4.  On a template in [shape], a run named [job_name] returns, and in
    its inputs CreatePreprocessorModel's [PrimaryContainer.ModelDataUrl] is
    ['s3://{s3_bucket}/{pipeline_name}/models/preprocessor-{job_name}/output/model.tar.gz'],
    TransformInput's [TransformOutput.S3OutputPath] is
    ['s3://{s3_bucket}/{pipeline_name}/preprocessor-transform-{job_name}/transform'],
    and the Train step's [InputDataConfig] is a list of one channel, named
    ['train'], whose [S3Uri] is that output path. *)
Theorem execute_derives_s3_uris self timestamp j hp h L :
  input_template self = VRef (place L Template) ->
  shape h L -> hyperparameters_of h L hp ->
  exists e h',
    execute self timestamp (VStr j) hp h = Ok (e, h') /\
    input_of e h' [KStr (StepId_value CreatePreprocessorModel);
                   KStr "PrimaryContainer"; KStr "ModelDataUrl"]
      (VStr ("s3://" ++ s3_bucket (attrs self) ++ "/" ++ name (workflow self)
             ++ "/models/preprocessor-" ++ j ++ "/output/model.tar.gz")) /\
    exists transform_output channels channel,
      transform_output
      = VStr ("s3://" ++ s3_bucket (attrs self) ++ "/" ++ name (workflow self)
              ++ "/preprocessor-transform-" ++ j ++ "/transform") /\
      input_of e h' [KStr (StepId_value TransformInput); KStr "TransformOutput";
                     KStr "S3OutputPath"] transform_output /\
      input_of e h' [KStr (StepId_value Train); KStr "InputDataConfig"] channels /\
      iterate channels h' = Ok ([channel], h') /\
      subscripts channel [KStr "ChannelName"] h' = Ok (VStr "train", h') /\
      subscripts channel [KStr "DataSource"; KStr "S3DataSource"; KStr "S3Uri"] h'
      = Ok (transform_output, h').
Proof.
  intros Htpl Hs Hhp.
  destruct (execute_runs self timestamp (VStr j) hp j h L) as (e & h' & Hrun & Hp);
    [done | done | done | by left |].
  exists e, h'. split; [exact Hrun|].
  pose proof (patched_train_channels _ _ _ _ _ _ Hp)
    as (cs & c & ds & src & Hcs & Hel & Hc & Hds & Hsrc).
  open_patched Hp.
  split.
  - rewrite <- model_data_url_preprocessor. input_tac Hp.
  - exists (VStr (transform_uri self j)), (VRef cs), (VRef c).
    split; [by rewrite transform_uri_eq|].
    split; [input_tac Hp|]. split; [input_tac Hp|].
    split; [by apply iterate_list|].
    split; apply reads_subscripts.
    + eapply reads_str; [|apply reads_nil]. unfold field. by rewrite Hc.
    + eapply reads_str; [unfold field; rewrite Hc; reflexivity|].
      eapply reads_str; [unfold field; rewrite Hds; reflexivity|].
      eapply reads_str; [unfold field; rewrite Hsrc; reflexivity|].
      apply reads_nil.
Qed.

(** C5.  On a template in [shape], every run, named by a string or not
    named, returns, and in its inputs both training steps have
    [OutputDataConfig.S3OutputPath] equal to
    ['s3://{s3_bucket}/{pipeline_name}/models'] and
    [DebugHookConfig.S3OutputPath] equal to
    ['s3://{s3_bucket}/{pipeline_name}/models/debug'], for the bucket of the
    pipeline and the name of its workflow. *)
Theorem execute_sets_output_paths self timestamp job_name hp h L :
  input_template self = VRef (place L Template) ->
  shape h L -> hyperparameters_of h L hp ->
  job_name = VNone \/ (exists j, job_name = VStr j) ->
  exists e h',
    execute self timestamp job_name hp h = Ok (e, h') /\
    Forall (fun s =>
      input_of e h' [KStr (StepId_value s); KStr "OutputDataConfig";
                     KStr "S3OutputPath"]
        (VStr ("s3://" ++ s3_bucket (attrs self) ++ "/"
               ++ name (workflow self) ++ "/models")) /\
      input_of e h' [KStr (StepId_value s); KStr "DebugHookConfig";
                     KStr "S3OutputPath"]
        (VStr ("s3://" ++ s3_bucket (attrs self) ++ "/"
               ++ name (workflow self) ++ "/models/debug")))
      [TrainPreprocessor; Train].
Proof.
  intros Htpl Hs Hhp Hname.
  assert (exists j, job_name_of timestamp job_name j) as [j Hj].
  { destruct Hname as [-> | [j ->]]; eexists; [by right | by left]. }
  destruct (execute_runs self timestamp job_name hp j h L) as (e & h' & Hrun & Hp);
    [done..|].
  exists e, h'. split; [exact Hrun|].
  open_patched Hp.
  rewrite <- models_debug_uri. fold (models_uri self).
  repeat constructor; input_tac Hp.
Qed.

(** C6.  On a template in [shape], a run named [job_name] returns, and in
    its inputs the containers of CreatePipelineModel follow the upstream
    steps: [Containers[0].ModelDataUrl]
    is CreatePreprocessorModel's [PrimaryContainer.ModelDataUrl], and
    [Containers[1].ModelDataUrl] is
    ['{Train OutputDataConfig S3OutputPath}/{Train TrainingJobName}/output/model.tar.gz'],
    that is
    ['s3://{s3_bucket}/{pipeline_name}/models/estimator-{job_name}/output/model.tar.gz']. *)
Theorem execute_configures_pipeline_model self timestamp j hp h L :
  input_template self = VRef (place L Template) ->
  shape h L -> hyperparameters_of h L hp ->
  exists e h' preprocessor_url s3_output job,
    execute self timestamp (VStr j) hp h = Ok (e, h') /\
    input_of e h' [KStr (StepId_value CreatePreprocessorModel);
                   KStr "PrimaryContainer"; KStr "ModelDataUrl"]
      preprocessor_url /\
    input_of e h' [KStr (StepId_value CreatePipelineModel); KStr "Containers";
                   KIdx 0; KStr "ModelDataUrl"] preprocessor_url /\
    input_of e h' [KStr (StepId_value Train); KStr "OutputDataConfig";
                   KStr "S3OutputPath"] (VStr s3_output) /\
    input_of e h' [KStr (StepId_value Train); KStr "TrainingJobName"]
      (VStr job) /\
    input_of e h' [KStr (StepId_value CreatePipelineModel); KStr "Containers";
                   KIdx 1; KStr "ModelDataUrl"]
      (VStr (s3_output ++ "/" ++ job ++ "/output/model.tar.gz")) /\
    s3_output ++ "/" ++ job ++ "/output/model.tar.gz"
    = "s3://" ++ s3_bucket (attrs self) ++ "/" ++ name (workflow self)
      ++ "/models/estimator-" ++ j ++ "/output/model.tar.gz".
Proof.
  intros Htpl Hs Hhp.
  destruct (execute_runs self timestamp (VStr j) hp j h L) as (e & h' & Hrun & Hp);
    [done | done | done | by left |].
  exists e, h', (VStr (model_data_url self ("preprocessor-" ++ j))),
    (models_uri self), ("estimator-" ++ j).
  split; [exact Hrun|].
  open_patched Hp.
  repeat split; try input_tac Hp.
  apply model_data_url_estimator.
Qed.

(** C7.  [replace_sagemaker_job_name(config, job_name)] changes the store
    if and only if [JOB_NAME_PARAM_NAME] is a key of
    [config['HyperParameters']]: then that entry becomes the job name in
    double quotes and every other entry of every dictionary is as before;
    otherwise the store is as before.  Lists are never touched. *)
Theorem replace_sagemaker_job_name_frame h config hyper j :
  field h config "HyperParameters" = Some (VRef hyper) -> is_dict h hyper ->
  exists h',
    replace_sagemaker_job_name (VRef config) (VStr j) h = Ok (tt, h') /\
    (is_Some (field h hyper JOB_NAME_PARAM_NAME) ->
     field h' hyper JOB_NAME_PARAM_NAME = Some (VStr (dquote ++ j ++ dquote)) /\
     forall l k, l <> hyper \/ k <> JOB_NAME_PARAM_NAME ->
       field h' l k = field h l k) /\
    (field h hyper JOB_NAME_PARAM_NAME = None -> h' = h) /\
    (h' <> h -> is_Some (field h hyper JOB_NAME_PARAM_NAME)) /\
    (forall l, elems_at h' l = elems_at h l) /\
    length h' = length h.
Proof.
  intros Hc Hd. exists (set_job_name hyper j h).
  split; [by apply replace_sagemaker_job_name_ok|].
  unfold set_job_name.
  destruct (field h hyper JOB_NAME_PARAM_NAME) as [old|] eqn:Hk.
  - split; [|split; [done|]].
    + intros _. split; [by apply field_set_field_same|].
      intros l k Hne. apply field_set_field_other; [|done].
      destruct Hne as [Hl|Hk']; [left | right]; congruence.
    + split; [eauto|]. split; [apply elems_at_set_field | apply length_set_field].
  - split; [by intros [? ?]|]. split; [done|]. split; [done|]. done.
Qed.

(** Calls without hyperparameters keep the template in shape and referring
    to the hyperparameters it referred to. *)
Lemma later_calls_linked self L h h1 :
  input_template self = VRef (place L Template) ->
  later_calls self h h1 -> shape h L -> linked h L -> shape h1 L /\ linked h1 L.
Proof.
  intros Htpl Hcalls Hs Hl.
  induction Hcalls as [|h1 timestamp job_name e h2 _ [IHs IHl] Hname Hrun];
    [done|].
  assert (exists j, job_name_of timestamp job_name j) as [j Hj].
  { destruct Hname as [-> | [j ->]]; eexists; [by right | by left]. }
  destruct (execute_runs self timestamp job_name VNone j h1 L)
    as (e' & h2' & Hrun' & Hp); [done | done | by left | done |].
  rewrite Hrun in Hrun'. injection Hrun' as <- <-.
  split; [apply (patched_shape _ _ _ _ _ _ Hp) | apply (patched_linked _ _ _ _ _ _ Hp)].
Qed.

(** C9.  [execute] copies only the top-level dictionary of the input
    template.  After a call with a caller-supplied hyperparameters
    dictionary, the template's own top-level dictionary has the entries it
    had, and the inputs of the execution are a new dictionary with the same
    entries, so both refer to the same per-step dictionaries: the patched
    job names and the caller's dictionary are read through
    [self.input_template] as well, and every later call made without
    hyperparameters starts its execution on the caller's dictionary. *)
Theorem execute_shares_step_inputs self timestamp j h L :
  input_template self = VRef (place L Template) ->
  shape h L ->
  exists e h' inputs,
    execute self timestamp (VStr j) (VRef (place L TrainHyper)) h = Ok (e, h') /\
    dict_at h' (place L Template) = dict_at h (place L Template) /\
    execution_inputs e = VRef inputs /\
    h !! inputs = None /\
    dict_at h' inputs = dict_at h' (place L Template) /\
    subscripts (input_template self)
      [KStr (StepId_value TrainPreprocessor); KStr "TrainingJobName"] h'
    = Ok (VStr ("preprocessor-" ++ j), h') /\
    subscripts (input_template self)
      [KStr (StepId_value Train); KStr "TrainingJobName"] h'
    = Ok (VStr ("estimator-" ++ j), h') /\
    subscripts (input_template self)
      [KStr (StepId_value Train); KStr "HyperParameters"] h'
    = Ok (VRef (place L TrainHyper), h') /\
    forall h1 timestamp' job_name,
      later_calls self h' h1 ->
      job_name = VNone \/ (exists j', job_name = VStr j') ->
      exists e1 h2,
        execute self timestamp' job_name VNone h1 = Ok (e1, h2) /\
        input_of e1 h2 [KStr (StepId_value Train); KStr "HyperParameters"]
          (VRef (place L TrainHyper)).
Proof.
  intros Htpl Hs.
  destruct (execute_runs self timestamp (VStr j) (VRef (place L TrainHyper)) j h L)
    as (e & h' & Hrun & Hp); [done | done | by right | by left |].
  exists e, h', (length h). split; [exact Hrun|].
  pose proof (patched_linked _ _ _ _ _ _ Hp) as Hlink. unfold linked in Hlink.
  split; [apply (patched_template _ _ _ _ _ _ Hp)|].
  split; [by rewrite (patched_execution _ _ _ _ _ _ Hp)|].
  split; [by apply lookup_ge_None|].
  split.
  { rewrite (patched_inputs _ _ _ _ _ _ Hp).
    symmetry. apply (patched_template _ _ _ _ _ _ Hp). }
  rewrite Htpl.
  split; [|split; [|split]].
  - eapply template_of_step; [exact Hp|]. open_patched Hp. path_tac.
  - eapply template_of_step; [exact Hp|]. open_patched Hp. path_tac.
  - eapply template_of_step; [exact Hp|]. open_patched Hp. path_tac.
  - intros h1 timestamp' job_name Hcalls Hname.
    destruct (later_calls_linked self L h' h1) as [Hs1 Hl1];
      [done | done | apply (patched_shape _ _ _ _ _ _ Hp) | done |].
    assert (exists j', job_name_of timestamp' job_name j') as [j' Hj'].
    { destruct Hname as [-> | [j' ->]]; eexists; [by right | by left]. }
    destruct (execute_runs self timestamp' job_name VNone j' h1 L)
      as (e1 & h2 & Hrun1 & Hp1); [done | done | by left | done |].
    exists e1, h2. split; [exact Hrun1|].
    pose proof (patched_linked _ _ _ _ _ _ Hp1) as Hlink1.
    unfold linked in Hlink1.
    eapply input_of_step; [exact Hp1|]. path_tac.
Qed.

(** ** Construction *)

Lemma bind_inv {A B} (m : M A) (k : A -> M B) h b h2 :
  bind m k h = Ok (b, h2) ->
  exists a h1, m h = Ok (a, h1) /\ k a h1 = Ok (b, h2).
Proof.
  unfold bind. destruct (m h) as [[a h1]|e]; [eauto | discriminate].
Qed.

Lemma bind_raises {A B} (m : M A) (k : A -> M B) h :
  (forall a h1, m h = Ok (a, h1) -> exists e, k a h1 = Raise e) ->
  exists e, bind m k h = Raise e.
Proof.
  intros Hk. unfold bind. destruct (m h) as [[a h1]|e]; [eauto | eauto].
Qed.

Lemma new_step_inv c h s h1 :
  new_step c h = Ok (s, h1) ->
  exists p, s = {| call := c; parameters := p; catches := [] |}.
Proof.
  intros (p & h0 & _ & Hret)%bind_inv. injection Hret as <- _. eauto.
Qed.

Lemma new_step_succeeds c :
  succeeds (step_parameters c) -> succeeds (new_step c).
Proof.
  intros Hp h. destruct (Hp h) as (p & h1 & Hp1).
  eexists _, _. unfold new_step. eapply bind_ok; [exact Hp1 | reflexivity].
Qed.

(** Every chain that [build_workflow_definition] returns consists of the
    seven steps below, none with a catcher. *)
Lemma build_workflow_definition_steps self h c h' :
  build_workflow_definition self h = Ok (c, h') ->
  exists p1 p2 p3 p4 p5 p6 p7 preprocessor_model tr train_data,
    inputs self = InputsChannels train_data.1 /\
    train_data.1 !! "train" = Some train_data.2 /\
    steps c =
    [ {| call := TrainingStep (StepId_value TrainPreprocessor)
                   (preprocessor self)
                   (pipeline_name self ++ "/preprocessor-source") (inputs self);
         parameters := p1; catches := [] |};
      {| call := ModelStep (StepId_value CreatePreprocessorModel)
                   (train_instance_type (preprocessor self))
                   preprocessor_model (pipeline_name self);
         parameters := p2; catches := [] |};
      {| call := TransformStep (StepId_value TransformInput) tr
                   (pipeline_name self) (pipeline_name self) train_data.2
                   (compression_type self) (content_type self);
         parameters := p3; catches := [] |};
      {| call := TrainingStep (StepId_value Train) (estimator self)
                   (pipeline_name self ++ "/estimator-source") (inputs self);
         parameters := p4; catches := [] |};
      {| call := ModelStep (StepId_value CreatePipelineModel)
                   (train_instance_type (estimator self))
                   preprocessor_model (pipeline_name self);
         parameters := p5; catches := [] |};
      {| call := EndpointConfigStep (StepId_value ConfigureEndpoint)
                   (pipeline_name self) (pipeline_name self)
                   (train_instance_count (estimator self))
                   (train_instance_type (estimator self));
         parameters := p6; catches := [] |};
      {| call := EndpointStep (StepId_value Deploy) (pipeline_name self)
                   (pipeline_name self);
         parameters := p7; catches := [] |} ].
Proof.
  unfold build_workflow_definition. intros H.
  apply bind_inv in H as (s1 & h1 & [p1 ->]%new_step_inv & H).
  apply bind_inv in H as (preprocessor_model & h2 & _ & H).
  apply bind_inv in H as (s2 & h3 & [p2 ->]%new_step_inv & H).
  apply bind_inv in H as (tr & h4 & _ & H).
  apply bind_inv in H as (ch & h5 & Hch & H).
  apply bind_inv in H as (s3 & h6 & [p3 ->]%new_step_inv & H).
  apply bind_inv in H as (s4 & h7 & [p4 ->]%new_step_inv & H).
  apply bind_inv in H as (m1 & h8 & _ & H).
  apply bind_inv in H as (m2 & h9 & _ & H).
  apply bind_inv in H as (pipeline_model & h10 & _ & H).
  apply bind_inv in H as (s5 & h11 & [p5' ->]%new_step_inv & H).
  apply bind_inv in H as (p5 & h12 & _ & H).
  apply bind_inv in H as (deployable & h13 & _ & H).
  apply bind_inv in H as (s6 & h14 & [p6 ->]%new_step_inv & H).
  apply bind_inv in H as (s7 & h15 & [p7 ->]%new_step_inv & H).
  injection H as <- _.
  unfold subscript_inputs in Hch.
  destruct (inputs self) as [|channels| | |] eqn:Hin; try discriminate.
  destruct (channels !! "train") as [c|] eqn:Htrain; [|discriminate].
  injection Hch as <- _.
  exists p1, p2, p3, p4, p5, p6, p7, preprocessor_model, tr, (channels, c).
  done.
Qed.

Lemma build_workflow_definition_succeeds self channels h :
  sdk_returns (preprocessor self) (estimator self) ->
  inputs self = InputsChannels channels -> is_Some (channels !! "train") ->
  exists c h', build_workflow_definition self h = Ok (c, h').
Proof.
  intros Hsdk Hin [ch Hch].
  pose proof (fun c => new_step_succeeds c (returns_parameters _ _ Hsdk c)) as Hstep.
  unfold build_workflow_definition.
  destruct (Hstep (TrainingStep (StepId_value TrainPreprocessor)
              (preprocessor self) (pipeline_name self ++ "/preprocessor-source")
              (inputs self)) h) as (s1 & h1 & E1).
  destruct (returns_preprocessor_model _ _ Hsdk h1) as (pm & h2 & E2).
  destruct (Hstep (ModelStep (StepId_value CreatePreprocessorModel)
              (train_instance_type (preprocessor self)) pm (pipeline_name self))
              h2) as (s2 & h3 & E3).
  destruct (returns_transformer _ _ Hsdk
              (train_instance_count (preprocessor self))
              (train_instance_type (preprocessor self)) 20 h3) as (tr & h4 & E4).
  destruct (Hstep (TransformStep (StepId_value TransformInput) tr
              (pipeline_name self) (pipeline_name self) ch
              (compression_type self) (content_type self)) h4)
    as (s3 & h5 & E5).
  destruct (Hstep (TrainingStep (StepId_value Train) (estimator self)
              (pipeline_name self ++ "/estimator-source") (inputs self)) h5)
    as (s4 & h6 & E6).
  destruct (returns_preprocessor_model _ _ Hsdk h6) as (m1 & h7 & E7).
  destruct (returns_estimator_model _ _ Hsdk h7) as (m2 & h8 & E8).
  destruct (returns_pipeline_model _ _ Hsdk "PipelineModel"
              (role (estimator self)) [m1; m2] h8) as (pipe & h9 & E9).
  destruct (Hstep (ModelStep (StepId_value CreatePipelineModel)
              (train_instance_type (estimator self)) pm (pipeline_name self))
              h9) as (s5 & h10 & E10).
  destruct (returns_container_def _ _ Hsdk _ _ _ _ _ _ E9
              (train_instance_type (estimator self)) h10) as (cs & h11 & E11).
  destruct (returns_model _ _ Hsdk EmptyString EmptyString
              (h11 ++ [dict_of [("ModelName", VStr "pipeline-model");
                                ("Containers", cs);
                                ("ExecutionRoleArn", VStr (pipeline_role pipe))]])%list)
    as (dm & h12 & E12).
  destruct (Hstep (EndpointConfigStep (StepId_value ConfigureEndpoint)
              (pipeline_name self) (pipeline_name self)
              (train_instance_count (estimator self))
              (train_instance_type (estimator self))) h12) as (s6 & h13 & E13).
  destruct (Hstep (EndpointStep (StepId_value Deploy) (pipeline_name self)
              (pipeline_name self)) h13) as (s7 & h14 & E14).
  eexists _, _.
  eapply bind_ok; [exact E1|]. eapply bind_ok; [exact E2|].
  eapply bind_ok; [exact E3|]. eapply bind_ok; [exact E4|].
  eapply bind_ok; [by rewrite Hin; unfold subscript_inputs; rewrite Hch|].
  eapply bind_ok; [exact E5|]. eapply bind_ok; [exact E6|].
  eapply bind_ok; [exact E7|]. eapply bind_ok; [exact E8|].
  eapply bind_ok; [exact E9|]. eapply bind_ok; [exact E10|].
  eapply bind_ok.
  { unfold pipeline_model_config. eapply bind_ok; [exact E11 | reflexivity]. }
  eapply bind_ok; [exact E12|]. eapply bind_ok; [exact E13|].
  eapply bind_ok; [exact E14|]. reflexivity.
Qed.

(** C2.  When the SDK calls return and [inputs] has a ['train'] channel,
    construction returns a pipeline whose definition is the chain that
    [build_workflow_definition] returns for its attributes: exactly seven
    states, in this order a training step TrainPreprocessor, a model step
    CreatePreprocessorModel, a transform step TransformInput, a training
    step Train, a model step CreatePipelineModel, an endpoint configuration
    step ConfigureEndpoint and an endpoint step Deploy; and this chain is
    the definition of the pipeline's workflow. *)
Theorem init_builds_seven_steps timestamp preprocessor estimator channels
    s3_bucket role client kwargs h :
  sdk_returns preprocessor estimator -> is_Some (channels !! "train") ->
  exists p h',
    __init__ timestamp preprocessor estimator (InputsChannels channels)
      s3_bucket role client kwargs h = Ok (p, h') /\
    (exists h1, build_workflow_definition (attrs p) h = Ok (definition p, h1)) /\
    state_id <$> steps (definition p) = StepId_value <$> pipeline_steps /\
    (exists preprocessor_model tr train_data,
       channels !! "train" = Some train_data /\
       call <$> steps (definition p) =
       [ TrainingStep (StepId_value TrainPreprocessor) preprocessor
           (pipeline_name (attrs p) ++ "/preprocessor-source")
           (InputsChannels channels);
         ModelStep (StepId_value CreatePreprocessorModel)
           (train_instance_type preprocessor) preprocessor_model
           (pipeline_name (attrs p));
         TransformStep (StepId_value TransformInput) tr
           (pipeline_name (attrs p)) (pipeline_name (attrs p)) train_data
           (kw_compression_type kwargs) (kw_content_type kwargs);
         TrainingStep (StepId_value Train) estimator
           (pipeline_name (attrs p) ++ "/estimator-source")
           (InputsChannels channels);
         ModelStep (StepId_value CreatePipelineModel)
           (train_instance_type estimator) preprocessor_model
           (pipeline_name (attrs p));
         EndpointConfigStep (StepId_value ConfigureEndpoint)
           (pipeline_name (attrs p)) (pipeline_name (attrs p))
           (train_instance_count estimator) (train_instance_type estimator);
         EndpointStep (StepId_value Deploy) (pipeline_name (attrs p))
           (pipeline_name (attrs p)) ]) /\
    Forall (fun s => is_Fail s = false) (steps (definition p)) /\
    workflow_definition (workflow p) = definition p.
Proof.
  intros Hsdk Htrain. unfold __init__.
  match goal with
  | |- context [build_workflow_definition ?a] => set (self := a)
  end.
  destruct (build_workflow_definition_succeeds self channels h)
    as (c & h1 & Hbuild); [done..|].
  destruct (returns_template _ _ Hsdk c h1) as (t & h2 & Ht).
  eexists _, _. split.
  { eapply bind_ok; [exact Hbuild|]. eapply bind_ok; [exact Ht|]. reflexivity. }
  simpl. split; [eauto|].
  apply build_workflow_definition_steps in Hbuild
    as (p1 & p2 & p3 & p4 & p5 & p6 & p7 & pm & tr & [cs td] & Hin & Htd & ->).
  subst self. simpl in Hin, Htd. injection Hin as <-.
  split; [reflexivity|]. split; [|split; [|done]].
  - exists pm, tr, td. split; [exact Htd | reflexivity].
  - repeat constructor.
Qed.

(** C8.  The definition that [build_workflow_definition] returns has its
    seven task states and nothing else: no [Fail] state, and no catcher on
    any state. *)
Theorem definition_has_no_failure_handling self channels h :
  sdk_returns (preprocessor self) (estimator self) ->
  inputs self = InputsChannels channels -> is_Some (channels !! "train") ->
  exists c h',
    build_workflow_definition self h = Ok (c, h') /\
    length (steps c) = 7 /\
    Forall (fun s => is_Fail s = false /\ catches s = []) (steps c).
Proof.
  intros Hsdk Hin Htrain.
  destruct (build_workflow_definition_succeeds self channels h)
    as (c & h' & Hbuild); [done..|].
  exists c, h'. split; [exact Hbuild|].
  apply build_workflow_definition_steps in Hbuild
    as (p1 & p2 & p3 & p4 & p5 & p6 & p7 & pm & tr & td & _ & _ & ->).
  split; [reflexivity|]. repeat constructor.
Qed.

Lemma bind_raise {A B} (m : M A) (k : A -> M B) h e :
  m h = Raise e -> bind m k h = Raise e.
Proof. intros Hm. unfold bind. by rewrite Hm. Qed.

(** C10.  Construction needs [inputs] to be a dict with a ['train'] entry:
    on an S3 URI string, on a dict without the key, or on any other form of
    [inputs], it raises instead of returning a pipeline; when the SDK calls
    before it return, the exception is the one of [self.inputs['train']], a
    [TypeError] or the [KeyError] of the missing key. *)
Theorem init_requires_train_channel timestamp preprocessor estimator inputs
    s3_bucket role client kwargs h :
  lacks_train inputs ->
  (exists e,
     __init__ timestamp preprocessor estimator inputs s3_bucket role client
       kwargs h = Raise e) /\
  (sdk_returns preprocessor estimator ->
   __init__ timestamp preprocessor estimator inputs s3_bucket role client
     kwargs h
   = Raise match inputs with
           | InputsChannels _ => KeyError (KStr "train")
           | _ => TypeError
           end).
Proof.
  intros Hlacks. split.
  - unfold __init__. apply bind_raises.
    intros c h1 Hbuild. exfalso.
    apply build_workflow_definition_steps in Hbuild
      as (_ & _ & _ & _ & _ & _ & _ & _ & _ & td & Hin & Htrain & _).
    simpl in Hin. subst inputs. simpl in Hlacks. congruence.
  - intros Hsdk. unfold __init__, build_workflow_definition.
    pose proof (fun c => new_step_succeeds c (returns_parameters _ _ Hsdk c))
      as Hstep.
    apply bind_raise. cbn.
    match goal with
    | |- bind (new_step ?c) _ _ = _ => destruct (Hstep c h) as (s1 & h1 & E1)
    end.
    eapply bind_ok; [exact E1|].
    destruct (returns_preprocessor_model _ _ Hsdk h1) as (pm & h2 & E2).
    eapply bind_ok; [exact E2|].
    match goal with
    | |- bind (new_step ?c) _ _ = _ => destruct (Hstep c h2) as (s2 & h3 & E3)
    end.
    eapply bind_ok; [exact E3|].
    match goal with
    | |- bind (transformer _ ?a ?b ?c) _ _ = _ =>
        destruct (returns_transformer _ _ Hsdk a b c h3) as (tr & h4 & E4)
    end.
    eapply bind_ok; [exact E4|].
    apply bind_raise.
    destruct inputs as [|channels| | |]; try reflexivity.
    simpl in Hlacks. unfold subscript_inputs. by rewrite Hlacks.
Qed.

(** ** Further properties of [replace_sagemaker_job_name] *)

Lemma subscript_missing h l k :
  is_dict h l -> field h l k = None ->
  subscript (VRef l) (KStr k) h = Raise (KeyError (KStr k)).
Proof.
  intros [d Hd]. unfold field. rewrite Hd. intros Hk.
  apply dict_at_Some in Hd. unfold subscript. by rewrite Hd, Hk.
Qed.

Lemma set_field_set_field l k x y h :
  set_field l k x (set_field l k y h) = set_field l k x h.
Proof.
  destruct (dict_at h l) as [d|] eqn:Hd.
  - unfold set_field at 1. rewrite (dict_at_set_field_eq _ _ _ _ d Hd).
    unfold set_field. rewrite Hd.
    by rewrite list_insert_insert_eq, insert_insert_eq.
  - unfold set_field at 2. rewrite Hd. done.
Qed.

Lemma field_set_job_name_key l j h l' k r :
  l <> l' \/ JOB_NAME_PARAM_NAME <> k ->
  field h l' k = r -> field (set_job_name l j h) l' k = r.
Proof.
  intros Hne <-. unfold set_job_name.
  destruct (field h l _); [|done]. by apply field_set_field_other.
Qed.

Lemma field_set_job_name_same l j h :
  is_Some (field h l JOB_NAME_PARAM_NAME) ->
  field (set_job_name l j h) l JOB_NAME_PARAM_NAME
  = Some (VStr (dquote ++ j ++ dquote)).
Proof.
  intros [old Hold]. unfold set_job_name. rewrite Hold.
  apply field_set_field_same. by eapply field_is_dict.
Qed.

Lemma set_job_name_absent l j h :
  field h l JOB_NAME_PARAM_NAME = None -> set_job_name l j h = h.
Proof. intros Hk. unfold set_job_name. by rewrite Hk. Qed.

Lemma set_job_name_twice l j1 j2 h :
  set_job_name l j2 (set_job_name l j1 h) = set_job_name l j2 h.
Proof.
  destruct (field h l JOB_NAME_PARAM_NAME) as [old|] eqn:Hk.
  - unfold set_job_name at 1.
    rewrite field_set_job_name_same by eauto.
    unfold set_job_name. rewrite Hk. apply set_field_set_field.
  - rewrite (set_job_name_absent l j1 h Hk). reflexivity.
Qed.

(** X1.  Two calls of [replace_sagemaker_job_name] on the same config
    amount to the second one alone: the job-name hyperparameter holds the
    last name, and nothing of the first call is left. *)
Theorem replace_sagemaker_job_name_last_wins h config hyper j1 j2 :
  field h config "HyperParameters" = Some (VRef hyper) -> is_dict h hyper ->
  config <> hyper \/ JOB_NAME_PARAM_NAME <> "HyperParameters" ->
  exists h1 h2,
    replace_sagemaker_job_name (VRef config) (VStr j1) h = Ok (tt, h1) /\
    replace_sagemaker_job_name (VRef config) (VStr j2) h1 = Ok (tt, h2) /\
    replace_sagemaker_job_name (VRef config) (VStr j2) h = Ok (tt, h2).
Proof.
  intros Hc Hd Hne.
  exists (set_job_name hyper j1 h), (set_job_name hyper j2 h).
  split; [by apply replace_sagemaker_job_name_ok|].
  split; [|by apply replace_sagemaker_job_name_ok].
  rewrite <- (set_job_name_twice hyper j1 j2 h).
  apply replace_sagemaker_job_name_ok.
  - apply field_set_job_name_key; [|done].
    destruct Hne as [Hl|Hk]; [left | by right]. congruence.
  - by apply is_dict_set_job_name.
Qed.

(** X2.  [replace_sagemaker_job_name] on a config without hyperparameters:
    a config dictionary with no ['HyperParameters'] key raises the
    [KeyError] of that key, and one whose ['HyperParameters'] is [None]
    raises a [TypeError]. *)
Theorem replace_sagemaker_job_name_needs_hyperparameters h config job_name :
  is_dict h config ->
  (field h config "HyperParameters" = None ->
   replace_sagemaker_job_name (VRef config) job_name h
   = Raise (KeyError (KStr "HyperParameters"))) /\
  (field h config "HyperParameters" = Some VNone ->
   replace_sagemaker_job_name (VRef config) job_name h = Raise TypeError).
Proof.
  intros Hd. unfold replace_sagemaker_job_name. split; intros Hk.
  - apply bind_raise. by apply subscript_missing.
  - eapply bind_ok; [by apply subscript_field|]. by apply bind_raise.
Qed.

(** ** Further properties of [execute] *)

(** X3.  On a template in [shape], a run without a [job_name] returns and
    goes by the generated name
    ['inference-pipeline-' + timestamp]: the execution is started under it,
    and the training job names and the endpoint name are derived from it. *)
Theorem execute_generates_job_name self timestamp hp h L :
  input_template self = VRef (place L Template) ->
  shape h L -> hyperparameters_of h L hp ->
  exists e h',
    execute self timestamp VNone hp h = Ok (e, h') /\
    execution_name e = VStr ("inference-pipeline-" ++ timestamp) /\
    input_of e h' [KStr (StepId_value TrainPreprocessor); KStr "TrainingJobName"]
      (VStr ("preprocessor-inference-pipeline-" ++ timestamp)) /\
    input_of e h' [KStr (StepId_value Train); KStr "TrainingJobName"]
      (VStr ("estimator-inference-pipeline-" ++ timestamp)) /\
    input_of e h' [KStr (StepId_value Deploy); KStr "EndpointName"]
      (VStr ("inference-pipeline-" ++ timestamp)).
Proof.
  intros Htpl Hs Hhp.
  destruct (execute_runs self timestamp VNone hp
              ("inference-pipeline" ++ "-" ++ timestamp) h L)
    as (e & h' & Hrun & Hp); [done | done | done | by right |].
  exists e, h'. split; [exact Hrun|].
  pose proof (patched_execution _ _ _ _ _ _ Hp) as He.
  split; [by rewrite He|].
  open_patched Hp.
  split; [|split].
  - change (VStr ("preprocessor-inference-pipeline-" ++ timestamp))
      with (VStr ("preprocessor-" ++ "inference-pipeline" ++ "-" ++ timestamp)).
    input_tac Hp.
  - change (VStr ("estimator-inference-pipeline-" ++ timestamp))
      with (VStr ("estimator-" ++ "inference-pipeline" ++ "-" ++ timestamp)).
    input_tac Hp.
  - change (VStr ("inference-pipeline-" ++ timestamp))
      with (VStr ("inference-pipeline" ++ "-" ++ timestamp)).
    input_tac Hp.
Qed.

(** X4.  A [job_name] that is neither [None] nor a string makes [execute]
    raise a [TypeError], at ['preprocessor-' + job_name]: no execution is
    started. *)
Theorem execute_rejects_non_string_job_name self timestamp job_name hp h L :
  input_template self = VRef (place L Template) ->
  shape h L -> hyperparameters_of h L hp ->
  job_name <> VNone -> (forall s, job_name <> VStr s) ->
  execute self timestamp job_name hp h = Raise TypeError.
Proof.
  intros Htpl Hs Hhp Hnone Hstr.
  destruct (place_is_dict h L Template Hs) as [dt Hdt]; [done..|].
  assert (Hsteps : forall s, dt !! StepId_value s
                             = Some (VRef (place L (StepInput s)))).
  { intros s. pose proof (shape_steps _ _ Hs s) as Hf.
    unfold field in Hf. by rewrite Hdt in Hf. }
  unfold execute. cbv beta zeta. rewrite Htpl.
  eapply bind_ok; [by apply copy_dict | cbv beta].
  eapply (bind_ok _ _ _ tt
            (set_field (place L (StepInput Train)) "HyperParameters"
               (VRef (place L TrainHyper)) (h ++ [ODict dt])%list)).
  { destruct Hhp as [[-> Hlink] | ->].
    - rewrite set_field_id; [done|]. unfold linked in Hlink. field_tac.
    - eapply store_at_reads; [reads_tac | dict_tac]. }
  apply bind_raise.
  destruct job_name as [|b|z|s|l]; try reflexivity; [done | by destruct (Hstr s)].
Qed.

(** X5.  A template without the entry of a step makes [execute] raise the
    [KeyError] of that step's id: the TrainPreprocessor step when no
    hyperparameters are passed, the Train step when some are.  An empty
    template is the special case. *)
Theorem execute_missing_step_raises self timestamp job_name template d h :
  input_template self = VRef template -> dict_at h template = Some d ->
  job_name = VNone \/ (exists j, job_name = VStr j) ->
  (d !! StepId_value TrainPreprocessor = None ->
   execute self timestamp job_name VNone h
   = Raise (KeyError (KStr (StepId_value TrainPreprocessor)))) /\
  (forall hp, hp <> VNone -> d !! StepId_value Train = None ->
   execute self timestamp job_name hp h
   = Raise (KeyError (KStr (StepId_value Train)))).
Proof.
  intros Htpl Hd Hname.
  assert (exists jn, job_name_of timestamp job_name jn) as [jn Hj].
  { destruct Hname as [-> | [j ->]]; eexists; [by right | by left]. }
  assert (Hmissing : forall s, d !! StepId_value s = None ->
            subscript (VRef (length h)) (KStr (StepId_value s))
              (h ++ [ODict d])%list
            = Raise (KeyError (KStr (StepId_value s)))).
  { intros s Hk. apply subscript_missing.
    - eexists. by apply dict_at_alloc_new.
    - by apply field_alloc_new. }
  split.
  - intros Hk. unfold execute. cbv beta zeta. rewrite Htpl.
    replace (match job_name with
             | VNone => VStr ("inference-pipeline" ++ "-" ++ timestamp)
             | _ => job_name
             end) with (VStr jn)
      by (by destruct Hj as [-> | [-> ->]]).
    eapply bind_ok; [by apply copy_dict | cbv beta].
    eapply bind_ok; [reflexivity | cbv beta].
    eapply bind_ok; [reflexivity | cbv beta].
    apply bind_raise. unfold store_at. apply bind_raise.
    simpl. apply bind_raise. by apply Hmissing.
  - intros hp Hhp Hk. unfold execute. cbv beta zeta. rewrite Htpl.
    eapply bind_ok; [by apply copy_dict | cbv beta].
    apply bind_raise.
    assert (store_at (VRef (length h)) [KStr (StepId_value Train)]
              "HyperParameters" hp (h ++ [ODict d])%list
            = Raise (KeyError (KStr (StepId_value Train)))) as Hstore.
    { unfold store_at. apply bind_raise. simpl. apply bind_raise.
      by apply Hmissing. }
    destruct hp; [done | exact Hstore..].
Qed.

(** X6.  A TrainPreprocessor step configured without a debugger hook, that
    is whose dictionary has no ['DebugHookConfig'] key, makes [execute]
    raise the [KeyError] of that key. *)
Theorem execute_needs_debug_hook_config self timestamp job_name template d
    step output h :
  input_template self = VRef template -> dict_at h template = Some d ->
  d !! StepId_value TrainPreprocessor = Some (VRef step) ->
  field h step "OutputDataConfig" = Some (VRef output) -> is_dict h output ->
  field h step "DebugHookConfig" = None ->
  job_name = VNone \/ (exists j, job_name = VStr j) ->
  execute self timestamp job_name VNone h
  = Raise (KeyError (KStr "DebugHookConfig")).
Proof.
  intros Htpl Hd Hstep Hout Hdo Hdebug Hname.
  pose proof (field_is_dict _ _ _ _ Hout) as Hds.
  pose proof (is_dict_lt _ _ Hds) as Hlt.
  pose proof (is_dict_lt _ _ Hdo) as Hlto.
  assert (exists jn, job_name_of timestamp job_name jn) as [jn Hj].
  { destruct Hname as [-> | [j ->]]; eexists; [by right | by left]. }
  unfold execute. cbv beta zeta. rewrite Htpl.
  replace (match job_name with
           | VNone => VStr ("inference-pipeline" ++ "-" ++ timestamp)
           | _ => job_name
           end) with (VStr jn)
    by (by destruct Hj as [-> | [-> ->]]).
  eapply bind_ok; [by apply copy_dict | cbv beta].
  eapply bind_ok; [reflexivity | cbv beta].
  eapply bind_ok; [reflexivity | cbv beta].
  eapply bind_ok.
  { eapply store_at_reads.
    - eapply reads_str; [by apply field_alloc_new | apply reads_nil].
    - by apply is_dict_alloc. }
  eapply bind_ok.
  { eapply store_at_reads.
    - eapply reads_str.
      { apply field_set_field_other; [left; lia|]. by apply field_alloc_new. }
      eapply reads_str; [|apply reads_nil].
      apply field_set_field_other; [by right|]. by apply field_alloc_old.
    - by apply is_dict_set_field, is_dict_alloc. }
  apply bind_raise. unfold store_at. apply bind_raise. simpl.
  eapply bind_ok.
  { apply subscript_field.
    apply field_set_field_other; [left; lia|].
    apply field_set_field_other; [left; lia|]. by apply field_alloc_new. }
  apply bind_raise. apply subscript_missing.
  - by apply is_dict_set_field, is_dict_set_field, is_dict_alloc.
  - apply field_set_field_other; [by right|].
    apply field_set_field_other; [by right|]. by apply field_alloc_old.
Qed.

(** X7.  On a template in [shape], so that the hyperparameters of the two
    training steps are two dictionaries and a dictionary the caller passes
    is none of the template's other objects, the one hyperparameter
    [execute] writes is the job-name parameter: where the hyperparameters
    of a training step have it, it becomes that step's training job name
    in double quotes, also in the dictionary the caller passed; where they
    do not, they are left as they were.  Every other hyperparameter keeps
    its value. *)
Theorem execute_quotes_job_name_hyperparameter self timestamp j hp h L :
  input_template self = VRef (place L Template) ->
  shape h L -> hyperparameters_of h L hp ->
  exists e h',
    execute self timestamp (VStr j) hp h = Ok (e, h') /\
    Forall (fun '(s, hyper, job) =>
      input_of e h' [KStr (StepId_value s); KStr "HyperParameters"]
        (VRef (place L hyper)) /\
      (is_Some (field h (place L hyper) JOB_NAME_PARAM_NAME) ->
       input_of e h' [KStr (StepId_value s); KStr "HyperParameters";
                      KStr JOB_NAME_PARAM_NAME]
         (VStr (dquote ++ job ++ dquote))) /\
      (field h (place L hyper) JOB_NAME_PARAM_NAME = None ->
       dict_at h' (place L hyper) = dict_at h (place L hyper)) /\
      (forall k, k <> JOB_NAME_PARAM_NAME ->
       field h' (place L hyper) k = field h (place L hyper) k))
      [(TrainPreprocessor, PreprocessorHyper, "preprocessor-" ++ j);
       (Train, TrainHyper, "estimator-" ++ j)].
Proof.
  intros Htpl Hs Hhp.
  destruct (execute_runs self timestamp (VStr j) hp j h L) as (e & h' & Hrun & Hp);
    [done | done | done | by left |].
  exists e, h'. split; [exact Hrun|].
  pose proof (patched_linked _ _ _ _ _ _ Hp) as Hlink. unfold linked in Hlink.
  pose proof (patched_preprocessor_hyper _ _ _ _ _ _ Hp) as Hph.
  pose proof (patched_train_hyper _ _ _ _ _ _ Hp) as Hth.
  assert (Hfield : forall hyper job k,
            dict_at h' (place L hyper)
            = dict_at (set_job_name (place L hyper) job h) (place L hyper) ->
            field h' (place L hyper) k
            = field (set_job_name (place L hyper) job h) (place L hyper) k).
  { intros hyper job k Heq. unfold field. by rewrite Heq. }
  open_patched Hp.
  repeat constructor; try input_tac Hp.
  - intros Hkey. eapply input_of_step; [exact Hp|].
    eapply reads_str; [eassumption|].
    eapply reads_str; [|apply reads_nil].
    rewrite (Hfield _ _ _ Hph). by apply field_set_job_name_same.
  - intros Hkey. rewrite Hph. by rewrite set_job_name_absent.
  - intros k Hk. rewrite (Hfield _ _ _ Hph).
    apply field_set_job_name_key; [right; congruence | done].
  - intros Hkey. eapply input_of_step; [exact Hp|].
    eapply reads_str; [eassumption|].
    eapply reads_str; [|apply reads_nil].
    rewrite (Hfield _ _ _ Hth). by apply field_set_job_name_same.
  - intros Hkey. rewrite Hth. by rewrite set_job_name_absent.
  - intros k Hk. rewrite (Hfield _ _ _ Hth).
    apply field_set_job_name_key; [right; congruence | done].
Qed.

(** ** What [execute] leaves alone *)

Lemma not_object_place L l s : l ∉ objects L -> place L s <> l.
Proof. intros Hl <-. apply Hl, place_in_objects. Qed.

Lemma not_object_variant L l : l ∉ objects L -> l ∉ variants L.
Proof. intros Hl Hv. by apply Hl, variant_in_objects. Qed.

Lemma not_object_ge h L l : shape h L -> length h <= l -> l ∉ objects L.
Proof.
  intros Hs Hge Hin. unfold objects in Hin.
  apply elem_of_app in Hin as [Hin|Hin].
  - apply list_elem_of_fmap in Hin as (s & -> & _).
    pose proof (place_lt h L s Hs). lia.
  - pose proof (variant_lt h L l Hs Hin). lia.
Qed.

Lemma lookup_of_contents (h h' : heap) l :
  dict_at h' l = dict_at h l -> elems_at h' l = elems_at h l ->
  l < length h -> h' !! l = h !! l.
Proof.
  intros Hd He Hl. destruct (h !! l) as [[d|xs]|] eqn:Ho.
  - apply dict_at_Some. rewrite Hd. by apply dict_at_Some.
  - apply elems_at_Some. rewrite He. by apply elems_at_Some.
  - apply lookup_ge_None in Ho. lia.
Qed.

Ltac frame_ne :=
  lazymatch goal with
  | Hl : ?l ∉ objects ?L |- place ?L _ ≠ ?l => exact (not_object_place L l _ Hl)
  | _ => loc_ne
  end.

Ltac frame_not_variant :=
  lazymatch goal with
  | Hl : ?l ∉ objects ?L |- ?l ∉ variants ?L => exact (not_object_variant L l Hl)
  | _ => not_variant
  end.

Ltac frame_key_ne :=
  first [left; frame_ne | right; discriminate | right; congruence].

Ltac frame_dict_at :=
  lazymatch goal with
  | |- dict_at (set_field _ _ _ _) _ = _ =>
      apply dict_at_set_field_other; [frame_ne | frame_dict_at]
  | |- dict_at (set_fields _ _ _ _) _ = _ =>
      apply dict_at_set_fields_other; [frame_not_variant | frame_dict_at]
  | |- dict_at (set_job_name _ _ _) _ = _ =>
      apply dict_at_set_job_name_other; [frame_ne | frame_dict_at]
  | |- dict_at (_ ++ _)%list _ = _ =>
      apply dict_at_alloc_other; [slot_lt | frame_dict_at]
  | _ => reflexivity
  end.

Ltac frame_elems :=
  lazymatch goal with
  | |- elems_at (set_field _ _ _ _) _ = _ =>
      rewrite elems_at_set_field; frame_elems
  | |- elems_at (set_fields _ _ _ _) _ = _ =>
      apply elems_at_set_fields; frame_elems
  | |- elems_at (set_job_name _ _ _) _ = _ =>
      apply elems_at_set_job_name; frame_elems
  | |- elems_at (_ ++ _)%list _ = _ =>
      apply elems_at_alloc_old; [slot_lt | frame_elems]
  | _ => reflexivity
  end.

Ltac frame_field :=
  lazymatch goal with
  | |- field (set_field _ _ _ _) _ _ = _ =>
      apply field_set_field_other; [frame_key_ne | frame_field]
  | |- field (set_fields _ _ _ _) _ _ = _ =>
      apply field_set_fields_other;
      [first [left; frame_not_variant | right; congruence] | frame_field]
  | |- field (set_job_name _ _ _) _ _ = _ =>
      apply field_set_job_name_key; [frame_key_ne | frame_field]
  | |- field (_ ++ _)%list _ _ = _ =>
      apply field_alloc_old; [slot_lt | frame_field]
  | _ => reflexivity
  end.

(** A run changes nothing but the entries it assigns. *)
Lemma execute_runs_frame self timestamp job_name hp j h L :
  input_template self = VRef (place L Template) ->
  shape h L -> hyperparameters_of h L hp -> job_name_of timestamp job_name j ->
  exists e h',
    execute self timestamp job_name hp h = Ok (e, h') /\
    length h' = length h + 5 /\
    (forall l, l < length h -> l ∉ objects L -> dict_at h' l = dict_at h l) /\
    (forall l, l < length h -> elems_at h' l = elems_at h l) /\
    (forall s k, k ∉ written s ->
       field h' (place L s) k = field h (place L s) k) /\
    (forall v k, v ∈ variants L -> k <> "ModelName" ->
       field h' v k = field h v k).
Proof.
  intros Htpl Hs Hhp Hj.
  destruct (place_is_dict h L Template Hs) as [dt Hdt]; [done..|].
  assert (Hsteps : forall s, dt !! StepId_value s
                             = Some (VRef (place L (StepInput s)))).
  { intros s. pose proof (shape_steps _ _ Hs s) as Hf.
    unfold field in Hf. by rewrite Hdt in Hf. }
  pose proof Hs as Hs'.
  destruct Hs' as [Hnd Hdicts Hst Hpo Hpd Hph Hpc Hto Hro Hrd Hcs Hcl Hvs Hvl].
  eexists _, _. split.
  - unfold execute. cbv beta zeta.
    replace (match job_name with
             | VNone => VStr ("inference-pipeline" ++ "-" ++ timestamp)
             | _ => job_name
             end) with (VStr j)
      by (by destruct Hj as [-> | [-> ->]]).
    rewrite Htpl.
    eapply bind_ok; [by apply copy_dict | cbv beta].
    eapply (bind_ok _ _ _ tt
              (set_field (place L (StepInput Train)) "HyperParameters"
                 (VRef (place L TrainHyper)) (h ++ [ODict dt])%list)).
    { destruct Hhp as [[-> Hlink] | ->].
      - rewrite set_field_id; [done|]. unfold linked in Hlink. field_tac.
      - eapply store_at_reads; [reads_tac | dict_tac]. }
    cbv beta.
    run_pure. run_store. run_store. run_store.
    run_read. run_pure. run_read. run_pure. run_store.
    run_read. run_store.
    run_read. run_store.
    run_read. run_store.
    run_pure. run_pure. run_store.
    run_subscript. run_read. run_replace.
    run_pure. run_store.
    run_read. run_pure.
    run_alloc. run_alloc. run_alloc. run_alloc.
    run_store. run_store. run_store. run_store.
    run_subscript. run_read. run_replace.
    run_read. run_store.
    run_read. run_pure. run_read. run_pure. run_store.
    run_store. run_read.
    eapply bind_ok; [apply iterate_list; elems_tac | cbv beta].
    eapply bind_ok;
      [apply for_each_store; apply Forall_forall; intros; dict_tac | cbv beta].
    run_store. run_store.
    reflexivity.
  - split; [autorewrite with heap_length; lia|].
    split; [intros l Hl Hobj; frame_dict_at|].
    split; [intros l Hl; frame_elems|].
    split.
    + intros s k Hk.
      destruct s as [|[]| | | | | | | | | | | |]; simpl in Hk;
        rewrite ?not_elem_of_cons in Hk; destruct_and?; frame_field.
    + intros v k Hv Hk. frame_field.
Qed.

(** X8.  A run of [execute] touches nothing beyond the entries it assigns:
    it adds five objects to the store (the copy of the template and the
    four of the new [InputDataConfig]), leaves every object that is not
    part of the template as it was, changes no list, and in the
    dictionaries of the template changes only the keys listed by
    [written] (and [ModelName] in the production variants). *)
Theorem execute_touches_only_its_entries self timestamp job_name hp h L :
  input_template self = VRef (place L Template) ->
  shape h L -> hyperparameters_of h L hp ->
  job_name = VNone \/ (exists j, job_name = VStr j) ->
  exists e h',
    execute self timestamp job_name hp h = Ok (e, h') /\
    length h' = length h + 5 /\
    (forall l, l < length h -> l ∉ objects L -> h' !! l = h !! l) /\
    (forall l, l < length h -> elems_at h' l = elems_at h l) /\
    (forall s k, k ∉ written s ->
       field h' (place L s) k = field h (place L s) k) /\
    (forall v k, v ∈ variants L -> k <> "ModelName" ->
       field h' v k = field h v k).
Proof.
  intros Htpl Hs Hhp Hname.
  assert (exists j, job_name_of timestamp job_name j) as [j Hj].
  { destruct Hname as [-> | [j ->]]; eexists; [by right | by left]. }
  destruct (execute_runs_frame self timestamp job_name hp j h L)
    as (e & h' & Hrun & Hlen & Hother & Hlists & Hkeys & Hvars); [done..|].
  exists e, h'. repeat split; try done.
  intros l Hl Hobj. apply lookup_of_contents; auto.
Qed.

(** X9.  The inputs of an earlier execution do not stay as they were: a
    later call of [execute] starts its execution on a new top-level
    dictionary, but patches the per-step dictionaries that the earlier
    inputs refer to as well, so the earlier inputs then show the job names
    of the later run. *)
Theorem execute_changes_earlier_inputs self timestamp1 timestamp2 j1 j2 hp h L :
  input_template self = VRef (place L Template) ->
  shape h L -> hyperparameters_of h L hp ->
  exists e1 h1 e2 h2,
    execute self timestamp1 (VStr j1) hp h = Ok (e1, h1) /\
    input_of e1 h1 [KStr (StepId_value TrainPreprocessor); KStr "TrainingJobName"]
      (VStr ("preprocessor-" ++ j1)) /\
    execute self timestamp2 (VStr j2) VNone h1 = Ok (e2, h2) /\
    execution_inputs e2 <> execution_inputs e1 /\
    input_of e1 h2 [KStr (StepId_value TrainPreprocessor); KStr "TrainingJobName"]
      (VStr ("preprocessor-" ++ j2)) /\
    input_of e1 h2 [KStr (StepId_value Deploy); KStr "EndpointName"] (VStr j2).
Proof.
  intros Htpl Hs Hhp.
  destruct (execute_runs self timestamp1 (VStr j1) hp j1 h L)
    as (e1 & h1 & Hrun1 & Hp1); [done | done | done | by left |].
  pose proof (patched_shape _ _ _ _ _ _ Hp1) as Hs1.
  pose proof (patched_linked _ _ _ _ _ _ Hp1) as Hl1.
  destruct (execute_runs self timestamp2 (VStr j2) VNone j2 h1 L)
    as (e2 & h2 & Hrun2 & Hp2); [done | done | by left | by left |].
  destruct (execute_runs_frame self timestamp2 (VStr j2) VNone j2 h1 L)
    as (e2' & h2' & Hrun2' & _ & Hother & _); [done | done | by left | by left |].
  rewrite Hrun2 in Hrun2'. injection Hrun2' as <- <-.
  destruct (place_is_dict h L Template Hs) as [dt Hdt]; [done..|].
  pose proof (patched_inputs _ _ _ _ _ _ Hp1) as Hin1. rewrite Hdt in Hin1.
  assert (Hlt : length h < length h1).
  { apply is_dict_lt. by exists dt. }
  assert (Hcopy : dict_at h2 (length h) = Some dt).
  { rewrite Hother; [done | done |]. apply (not_object_ge h L); [done | lia]. }
  assert (Hstep : forall s ks x,
            reads h2 (VRef (place L (StepInput s))) ks x ->
            input_of e1 h2 (KStr (StepId_value s) :: ks) x).
  { intros s ks x Hr. unfold input_of. apply reads_subscripts.
    rewrite (patched_execution _ _ _ _ _ _ Hp1). simpl.
    eapply reads_str; [|exact Hr].
    unfold field. rewrite Hcopy.
    pose proof (shape_steps _ _ Hs s) as Hf. unfold field in Hf.
    by rewrite Hdt in Hf. }
  exists e1, h1, e2, h2.
  split; [exact Hrun1|].
  split. { open_patched Hp1. input_tac Hp1. }
  split; [exact Hrun2|].
  split.
  { rewrite (patched_execution _ _ _ _ _ _ Hp1),
      (patched_execution _ _ _ _ _ _ Hp2). simpl. intros [= Heq]. lia. }
  clear Hs1. open_patched Hp2.
  split; apply Hstep; path_tac.
Qed.

(** ** Further properties of construction *)

(** X10.  The pipeline is named after the [pipeline_name] keyword argument;
    when that is missing or the empty string, after
    ['inference-pipeline-' + timestamp].  The workflow goes by the same
    name, and the bucket is the one given. *)
Theorem init_names_pipeline timestamp pre est channels bucket arn client
    kwargs h :
  sdk_returns pre est -> is_Some (channels !! "train") ->
  exists p h',
    __init__ timestamp pre est (InputsChannels channels) bucket arn client
      kwargs h = Ok (p, h') /\
    name (workflow p) = pipeline_name (attrs p) /\
    (forall n, kw_pipeline_name kwargs = Some n -> n <> EmptyString ->
       pipeline_name (attrs p) = n) /\
    (kw_pipeline_name kwargs = None \/
     kw_pipeline_name kwargs = Some EmptyString ->
       pipeline_name (attrs p) = "inference-pipeline-" ++ timestamp) /\
    s3_bucket (attrs p) = bucket.
Proof.
  intros Hsdk Htrain. unfold __init__.
  match goal with
  | |- context [build_workflow_definition ?a] => set (self := a)
  end.
  destruct (build_workflow_definition_succeeds self channels h)
    as (c & h1 & Hbuild); [done..|].
  destruct (returns_template _ _ Hsdk c h1) as (t & h2 & Ht).
  eexists _, _. split.
  { eapply bind_ok; [exact Hbuild|]. eapply bind_ok; [exact Ht|]. reflexivity. }
  subst self. simpl. split; [done|]. split; [|split; [|done]].
  - intros n -> Hn. by destruct n.
  - by intros [-> | ->].
Qed.

(** X11.  How the definition wires the steps: both training steps are
    given the whole [inputs], under the job names
    [pipeline_name + '/preprocessor-source'] and
    [pipeline_name + '/estimator-source']; the transform step is given the
    ['train'] channel alone; both model steps are built from the one model
    created first from the preprocessor, the second with the estimator's
    instance type; the endpoint configuration uses the estimator's instance
    count and type; every other name is the pipeline's name. *)
Theorem definition_wires_steps self channels h :
  sdk_returns (preprocessor self) (estimator self) ->
  inputs self = InputsChannels channels -> is_Some (channels !! "train") ->
  exists c h' preprocessor_model tr train_data,
    build_workflow_definition self h = Ok (c, h') /\
    channels !! "train" = Some train_data /\
    call <$> steps c =
    [ TrainingStep (StepId_value TrainPreprocessor) (preprocessor self)
        (pipeline_name self ++ "/preprocessor-source") (inputs self);
      ModelStep (StepId_value CreatePreprocessorModel)
        (train_instance_type (preprocessor self)) preprocessor_model
        (pipeline_name self);
      TransformStep (StepId_value TransformInput) tr (pipeline_name self)
        (pipeline_name self) train_data (compression_type self)
        (content_type self);
      TrainingStep (StepId_value Train) (estimator self)
        (pipeline_name self ++ "/estimator-source") (inputs self);
      ModelStep (StepId_value CreatePipelineModel)
        (train_instance_type (estimator self)) preprocessor_model
        (pipeline_name self);
      EndpointConfigStep (StepId_value ConfigureEndpoint) (pipeline_name self)
        (pipeline_name self) (train_instance_count (estimator self))
        (train_instance_type (estimator self));
      EndpointStep (StepId_value Deploy) (pipeline_name self)
        (pipeline_name self) ].
Proof.
  intros Hsdk Hin Htrain.
  destruct (build_workflow_definition_succeeds self channels h)
    as (c & h' & Hbuild); [done..|].
  pose proof Hbuild as Hsteps.
  apply build_workflow_definition_steps in Hsteps
    as (p1 & p2 & p3 & p4 & p5 & p6 & p7 & pm & tr & [cs td] & Hin' & Htd & Hc).
  simpl in Hin', Htd. rewrite Hin in Hin'. injection Hin' as <-.
  exists c, h', pm, tr, td. split; [exact Hbuild|]. split; [exact Htd|].
  rewrite Hc. reflexivity.
Qed.

End Pipeline.

(** ** The properties on the sample pipeline *)

Lemma sample_shape : shape Sample.StepId_value Sample.store Sample.layout.
Proof.
  constructor; try reflexivity.
  - apply (bool_decide_unpack _). by vm_compute.
  - assert (Forall (fun l => l <> 14 -> l <> 18 -> is_Some (dict_at Sample.store l))
              (objects Sample.layout)) as Hall
      by (apply (bool_decide_unpack _); by vm_compute).
    intros l Hl H1 H2. by apply (proj1 (Forall_forall _ _) Hall l Hl).
  - intros []; reflexivity.
Qed.

Lemma sample_sdk_returns :
  sdk_returns Sample.new_PipelineModel Sample.new_Model Sample.step_parameters
    Sample._extract_input_template (Sample.sdk_estimator 1)
    (Sample.sdk_estimator 3).
Proof.
  constructor; try (intros; intros h; eexists _, _; reflexivity).
  intros name role models h pipeline_model h' [= <- _] type h0.
  eexists _, _. reflexivity.
Qed.

Lemma execute_patches_run_parameters_witness :
  (input_template Sample.pipeline = VRef (place Sample.layout Template) /\
   shape Sample.StepId_value Sample.store Sample.layout /\
   hyperparameters_of Sample.store Sample.layout (VRef 21)) /\
  exists e h',
    execute Sample.StepId_value Sample.JOB_NAME_PARAM_NAME Sample.pipeline
      "2019-11-03" (VStr "job7") (VRef 21) Sample.store = Ok (e, h') /\
    execution_name e = VStr "job7" /\
    input_of e h' [KStr "Train Preprocessor"; KStr "TrainingJobName"]
      (VStr "preprocessor-job7") /\
    input_of e h' [KStr "Training"; KStr "TrainingJobName"]
      (VStr "estimator-job7") /\
    input_of e h' [KStr "Training"; KStr "HyperParameters"] (VRef 21).
Proof.
  split; [split; [reflexivity | split; [exact sample_shape | by right]]|].
  destruct (execute_patches_run_parameters Sample.StepId_value
              Sample.JOB_NAME_PARAM_NAME Sample.pipeline "2019-11-03" "job7"
              (VRef 21) Sample.store Sample.layout eq_refl sample_shape
              (or_intror eq_refl))
    as (e & h' & Hrun & _ & Hname & Hpre & Hest & Hhyper).
  exists e, h'. repeat split; try assumption.
  apply Hhyper. discriminate.
Defined.

Lemma execute_propagates_job_names_witness :
  (input_template Sample.pipeline = VRef (place Sample.layout Template) /\
   shape Sample.StepId_value Sample.store Sample.layout /\
   hyperparameters_of Sample.store Sample.layout (VRef 21)) /\
  exists e h',
    execute Sample.StepId_value Sample.JOB_NAME_PARAM_NAME Sample.pipeline
      "2019-11-03" (VStr "job7") (VRef 21) Sample.store = Ok (e, h') /\
    input_of e h' [KStr "Transform Input"; KStr "TransformJobName"]
      (VStr "preprocessor-job7") /\
    input_of e h' [KStr "Configure Endpoint"; KStr "ProductionVariants";
                   KIdx 0] (VRef 19) /\
    input_of e h' [KStr "Configure Endpoint"; KStr "ProductionVariants";
                   KIdx 0; KStr "ModelName"] (VStr "job7") /\
    input_of e h' [KStr "Deploy"; KStr "EndpointName"] (VStr "job7").
Proof.
  split; [split; [reflexivity | split; [exact sample_shape | by right]]|].
  destruct (execute_propagates_job_names Sample.StepId_value
              Sample.JOB_NAME_PARAM_NAME Sample.pipeline "2019-11-03" "job7"
              (VRef 21) Sample.store Sample.layout eq_refl sample_shape
              (or_intror eq_refl))
    as (e & h' & Hrun & _ & _ & _ & Hjob & _ & _ & Hvariants & _ & Hend).
  destruct (Hvariants 0 (VRef 19) eq_refl) as [Hvariant Hname].
  exists e, h'. by repeat split.
Defined.

Lemma execute_derives_s3_uris_witness :
  (input_template Sample.pipeline = VRef (place Sample.layout Template) /\
   shape Sample.StepId_value Sample.store Sample.layout /\
   hyperparameters_of Sample.store Sample.layout (VRef 21)) /\
  exists e h',
    execute Sample.StepId_value Sample.JOB_NAME_PARAM_NAME Sample.pipeline
      "2019-11-03" (VStr "job7") (VRef 21) Sample.store = Ok (e, h') /\
    input_of e h' [KStr "Create Preprocessor Model"; KStr "PrimaryContainer";
                   KStr "ModelDataUrl"]
      (VStr "s3://bucket/demo/models/preprocessor-job7/output/model.tar.gz").
Proof.
  split; [split; [reflexivity | split; [exact sample_shape | by right]]|].
  destruct (execute_derives_s3_uris Sample.StepId_value
              Sample.JOB_NAME_PARAM_NAME Sample.pipeline "2019-11-03" "job7"
              (VRef 21) Sample.store Sample.layout eq_refl sample_shape
              (or_intror eq_refl))
    as (e & h' & Hrun & Hurl & _).
  exists e, h'. by split.
Defined.

Lemma execute_sets_output_paths_witness :
  (input_template Sample.pipeline = VRef (place Sample.layout Template) /\
   shape Sample.StepId_value Sample.store Sample.layout /\
   hyperparameters_of Sample.store Sample.layout (VRef 21) /\
   (VNone = VNone \/ exists j, VNone = VStr j)) /\
  exists e h',
    execute Sample.StepId_value Sample.JOB_NAME_PARAM_NAME Sample.pipeline
      "2019-11-03" VNone (VRef 21) Sample.store = Ok (e, h') /\
    input_of e h' [KStr "Training"; KStr "DebugHookConfig"; KStr "S3OutputPath"]
      (VStr "s3://bucket/demo/models/debug").
Proof.
  split;
    [split; [reflexivity | split; [exact sample_shape | split; [by right | by left]]]|].
  destruct (execute_sets_output_paths Sample.StepId_value
              Sample.JOB_NAME_PARAM_NAME Sample.pipeline "2019-11-03" VNone
              (VRef 21) Sample.store Sample.layout eq_refl sample_shape
              (or_intror eq_refl) (or_introl eq_refl))
    as (e & h' & Hrun & Hpaths).
  exists e, h'. split; [exact Hrun|].
  apply Forall_cons in Hpaths as [_ Hpaths].
  apply Forall_cons in Hpaths as [[_ Hdebug] _]. exact Hdebug.
Defined.

Lemma execute_configures_pipeline_model_witness :
  (input_template Sample.pipeline = VRef (place Sample.layout Template) /\
   shape Sample.StepId_value Sample.store Sample.layout /\
   hyperparameters_of Sample.store Sample.layout (VRef 21)) /\
  exists e h' url,
    execute Sample.StepId_value Sample.JOB_NAME_PARAM_NAME Sample.pipeline
      "2019-11-03" (VStr "job7") (VRef 21) Sample.store = Ok (e, h') /\
    input_of e h' [KStr "Create Pipeline Model"; KStr "Containers"; KIdx 1;
                   KStr "ModelDataUrl"] (VStr url) /\
    url = "s3://bucket/demo/models/estimator-job7/output/model.tar.gz".
Proof.
  split; [split; [reflexivity | split; [exact sample_shape | by right]]|].
  destruct (execute_configures_pipeline_model Sample.StepId_value
              Sample.JOB_NAME_PARAM_NAME Sample.pipeline "2019-11-03" "job7"
              (VRef 21) Sample.store Sample.layout eq_refl sample_shape
              (or_intror eq_refl))
    as (e & h' & u0 & out & job & Hrun & _ & _ & _ & _ & Hc1 & Heq).
  exists e, h', (out ++ "/" ++ job ++ "/output/model.tar.gz").
  by repeat split.
Defined.

Lemma replace_sagemaker_job_name_frame_witness :
  (field Sample.store 1 "HyperParameters" = Some (VRef 4) /\
   is_dict Sample.store 4) /\
  exists h',
    replace_sagemaker_job_name Sample.JOB_NAME_PARAM_NAME (VRef 1)
      (VStr "preprocessor-job7") Sample.store = Ok (tt, h') /\
    field h' 4 "sagemaker_job_name"
    = Some (VStr (dquote ++ "preprocessor-job7" ++ dquote)) /\
    field h' 4 "sagemaker_program" = Some (VStr "prep.py").
Proof.
  assert (Hd : is_dict Sample.store 4) by (eexists; reflexivity).
  split; [split; [reflexivity | exact Hd]|].
  destruct (replace_sagemaker_job_name_frame Sample.JOB_NAME_PARAM_NAME
              Sample.store 1 4 "preprocessor-job7" eq_refl Hd)
    as (h' & Hrun & Hset & _).
  assert (Hkey : is_Some (field Sample.store 4 Sample.JOB_NAME_PARAM_NAME))
    by (eexists; reflexivity).
  destruct (Hset Hkey) as [Hnew Hframe].
  exists h'. split; [exact Hrun|]. split; [exact Hnew|].
  rewrite Hframe; [reflexivity | right; discriminate].
Defined.

Lemma execute_shares_step_inputs_witness :
  (input_template Sample.pipeline = VRef (place Sample.layout Template) /\
   shape Sample.StepId_value Sample.store Sample.layout) /\
  exists e h',
    execute Sample.StepId_value Sample.JOB_NAME_PARAM_NAME Sample.pipeline
      "2019-11-03" (VStr "job7") (VRef 21) Sample.store = Ok (e, h') /\
    subscripts (VRef 0) [KStr "Training"; KStr "HyperParameters"] h'
    = Ok (VRef 21, h') /\
    exists e1 h2,
      execute Sample.StepId_value Sample.JOB_NAME_PARAM_NAME Sample.pipeline
        "2019-11-04" (VStr "job8") VNone h' = Ok (e1, h2) /\
      input_of e1 h2 [KStr "Training"; KStr "HyperParameters"] (VRef 21).
Proof.
  split; [split; [reflexivity | exact sample_shape]|].
  destruct (execute_shares_step_inputs Sample.StepId_value
              Sample.JOB_NAME_PARAM_NAME Sample.pipeline "2019-11-03" "job7"
              Sample.store Sample.layout eq_refl sample_shape)
    as (e & h' & i & Hrun & _ & Hin & Hnew & _ & _ & _ & Hhyper & Hlater).
  exists e, h'. split; [exact Hrun|].
  split; [exact Hhyper|].
  apply (Hlater h' "2019-11-04" (VStr "job8")); [constructor | right; eauto].
Defined.

Lemma init_builds_seven_steps_witness :
  (sdk_returns Sample.new_PipelineModel Sample.new_Model Sample.step_parameters
     Sample._extract_input_template (Sample.sdk_estimator 1)
     (Sample.sdk_estimator 3) /\
   is_Some (Sample.channels !! "train")) /\
  exists p h',
    __init__ Sample.StepId_value Sample.new_PipelineModel Sample.new_Model
      Sample.step_parameters Sample._extract_input_template "2019-11-03"
      (Sample.sdk_estimator 1) (Sample.sdk_estimator 3)
      (InputsChannels Sample.channels) "bucket" "arn:aws:iam::1:role/sfn" None
      {| kw_compression_type := None; kw_content_type := None;
         kw_pipeline_name := Some "demo" |} [] = Ok (p, h') /\
    state_id <$> steps (definition p)
    = ["Train Preprocessor"; "Create Preprocessor Model"; "Transform Input";
       "Training"; "Create Pipeline Model"; "Configure Endpoint"; "Deploy"] /\
    call <$> steps (definition p) !! 3
    = Some (TrainingStep "Training" (Sample.sdk_estimator 3)
              (pipeline_name (attrs p) ++ "/estimator-source")
              (InputsChannels Sample.channels)) /\
    Forall (fun s => is_Fail s = false) (steps (definition p)) /\
    workflow_definition (workflow p) = definition p.
Proof.
  assert (Htrain : is_Some (Sample.channels !! "train"))
    by (eexists; reflexivity).
  split; [split; [exact sample_sdk_returns | exact Htrain]|].
  destruct (init_builds_seven_steps Sample.StepId_value Sample.new_PipelineModel
              Sample.new_Model Sample.step_parameters
              Sample._extract_input_template "2019-11-03"
              (Sample.sdk_estimator 1) (Sample.sdk_estimator 3) Sample.channels
              "bucket" "arn:aws:iam::1:role/sfn" None
              {| kw_compression_type := None; kw_content_type := None;
                 kw_pipeline_name := Some "demo" |} [] sample_sdk_returns Htrain)
    as (p & h' & Hinit & _ & Hsteps & (m & tr & td & _ & Hcalls) & Htasks & Hwf).
  exists p, h'. repeat split; try done.
  rewrite <- list_lookup_fmap, Hcalls. reflexivity.
Defined.

Lemma definition_has_no_failure_handling_witness :
  (sdk_returns Sample.new_PipelineModel Sample.new_Model Sample.step_parameters
     Sample._extract_input_template (preprocessor (attrs Sample.pipeline))
     (estimator (attrs Sample.pipeline)) /\
   inputs (attrs Sample.pipeline) = InputsChannels Sample.channels /\
   is_Some (Sample.channels !! "train")) /\
  exists c h',
    build_workflow_definition Sample.StepId_value Sample.new_PipelineModel
      Sample.new_Model Sample.step_parameters (attrs Sample.pipeline) []
    = Ok (c, h') /\
    length (steps c) = 7 /\
    Forall (fun s => is_Fail s = false /\ catches s = []) (steps c).
Proof.
  assert (Htrain : is_Some (Sample.channels !! "train"))
    by (eexists; reflexivity).
  split; [split; [exact sample_sdk_returns | split; [reflexivity | exact Htrain]]|].
  exact (definition_has_no_failure_handling Sample.StepId_value
           Sample.new_PipelineModel Sample.new_Model Sample.step_parameters
           Sample._extract_input_template (attrs Sample.pipeline)
           Sample.channels [] sample_sdk_returns eq_refl Htrain).
Defined.

Lemma init_requires_train_channel_witness :
  lacks_train (InputsUri "s3://data/train") /\
  exists e,
    __init__ Sample.StepId_value Sample.new_PipelineModel Sample.new_Model
      Sample.step_parameters Sample._extract_input_template "2019-11-03"
      (Sample.sdk_estimator 1) (Sample.sdk_estimator 3)
      (InputsUri "s3://data/train") "bucket" "arn:aws:iam::1:role/sfn" None
      {| kw_compression_type := None; kw_content_type := None;
         kw_pipeline_name := Some "demo" |} [] = Raise e.
Proof.
  split; [exact I|].
  exact (proj1 (init_requires_train_channel Sample.StepId_value
                  Sample.new_PipelineModel Sample.new_Model
                  Sample.step_parameters Sample._extract_input_template
                  "2019-11-03" (Sample.sdk_estimator 1) (Sample.sdk_estimator 3)
                  (InputsUri "s3://data/train") "bucket"
                  "arn:aws:iam::1:role/sfn" None
                  {| kw_compression_type := None; kw_content_type := None;
                     kw_pipeline_name := Some "demo" |} [] I)).
Defined.

Lemma replace_sagemaker_job_name_last_wins_witness :
  (field Sample.store 1 "HyperParameters" = Some (VRef 4) /\
   is_dict Sample.store 4 /\
   (1 <> 4 \/ Sample.JOB_NAME_PARAM_NAME <> "HyperParameters")) /\
  exists h1 h2,
    replace_sagemaker_job_name Sample.JOB_NAME_PARAM_NAME (VRef 1)
      (VStr "first") Sample.store = Ok (tt, h1) /\
    replace_sagemaker_job_name Sample.JOB_NAME_PARAM_NAME (VRef 1)
      (VStr "second") h1 = Ok (tt, h2) /\
    replace_sagemaker_job_name Sample.JOB_NAME_PARAM_NAME (VRef 1)
      (VStr "second") Sample.store = Ok (tt, h2).
Proof.
  assert (Hd : is_dict Sample.store 4) by (eexists; reflexivity).
  assert (Hne : 1 <> 4 \/ Sample.JOB_NAME_PARAM_NAME <> "HyperParameters")
    by (left; discriminate).
  split; [split; [reflexivity | split; [exact Hd | exact Hne]]|].
  exact (replace_sagemaker_job_name_last_wins Sample.JOB_NAME_PARAM_NAME
           Sample.store 1 4 "first" "second" eq_refl Hd Hne).
Defined.

Lemma replace_sagemaker_job_name_needs_hyperparameters_witness :
  is_dict Sample.store 2 /\
  replace_sagemaker_job_name Sample.JOB_NAME_PARAM_NAME (VRef 2)
    (VStr "job7") Sample.store
  = Raise (KeyError (KStr "HyperParameters")).
Proof.
  assert (Hd : is_dict Sample.store 2) by (eexists; reflexivity).
  split; [exact Hd|].
  exact (proj1 (replace_sagemaker_job_name_needs_hyperparameters
                  Sample.JOB_NAME_PARAM_NAME Sample.store 2 (VStr "job7") Hd)
           eq_refl).
Defined.

Lemma execute_generates_job_name_witness :
  (input_template Sample.pipeline = VRef (place Sample.layout Template) /\
   shape Sample.StepId_value Sample.store Sample.layout /\
   hyperparameters_of Sample.store Sample.layout (VRef 21)) /\
  exists e h',
    execute Sample.StepId_value Sample.JOB_NAME_PARAM_NAME Sample.pipeline
      "2019-11-03" VNone (VRef 21) Sample.store = Ok (e, h') /\
    execution_name e = VStr "inference-pipeline-2019-11-03" /\
    input_of e h' [KStr "Training"; KStr "TrainingJobName"]
      (VStr "estimator-inference-pipeline-2019-11-03").
Proof.
  split; [split; [reflexivity | split; [exact sample_shape | by right]]|].
  destruct (execute_generates_job_name Sample.StepId_value
              Sample.JOB_NAME_PARAM_NAME Sample.pipeline "2019-11-03"
              (VRef 21) Sample.store Sample.layout eq_refl sample_shape
              (or_intror eq_refl))
    as (e & h' & Hrun & Hname & _ & Hest & _).
  exists e, h'. by repeat split.
Defined.

Lemma execute_rejects_non_string_job_name_witness :
  (input_template Sample.pipeline = VRef (place Sample.layout Template) /\
   shape Sample.StepId_value Sample.store Sample.layout /\
   hyperparameters_of Sample.store Sample.layout (VRef 21) /\
   VInt 7 <> VNone /\ (forall s, VInt 7 <> VStr s)) /\
  execute Sample.StepId_value Sample.JOB_NAME_PARAM_NAME Sample.pipeline
    "2019-11-03" (VInt 7) (VRef 21) Sample.store = Raise TypeError.
Proof.
  assert (Hnone : VInt 7 <> VNone) by discriminate.
  assert (Hstr : forall s, VInt 7 <> VStr s) by discriminate.
  split;
    [split; [reflexivity | split; [exact sample_shape | split; [by right | done]]]|].
  exact (execute_rejects_non_string_job_name Sample.StepId_value
           Sample.JOB_NAME_PARAM_NAME Sample.pipeline "2019-11-03" (VInt 7)
           (VRef 21) Sample.store Sample.layout eq_refl sample_shape
           (or_intror eq_refl) Hnone Hstr).
Defined.

Lemma execute_missing_step_raises_witness :
  (input_template Sample.pipeline = VRef 0 /\
   dict_at [dict_of []] 0 = Some ∅ /\
   (VStr "job7" = VNone \/ exists j, VStr "job7" = VStr j)) /\
  execute Sample.StepId_value Sample.JOB_NAME_PARAM_NAME Sample.pipeline
    "2019-11-03" (VStr "job7") VNone [dict_of []]
  = Raise (KeyError (KStr "Train Preprocessor")) /\
  execute Sample.StepId_value Sample.JOB_NAME_PARAM_NAME Sample.pipeline
    "2019-11-03" (VStr "job7") (VRef 0) [dict_of []]
  = Raise (KeyError (KStr "Training")).
Proof.
  assert (Hname : VStr "job7" = VNone \/ exists j, VStr "job7" = VStr j)
    by (right; eauto).
  split; [split; [reflexivity | split; [reflexivity | exact Hname]]|].
  destruct (execute_missing_step_raises Sample.StepId_value
              Sample.JOB_NAME_PARAM_NAME Sample.pipeline "2019-11-03"
              (VStr "job7") 0 ∅ [dict_of []] eq_refl eq_refl Hname)
    as [Hpre Htrain].
  split; [by apply Hpre | by apply Htrain].
Defined.

Lemma execute_needs_debug_hook_config_witness :
  let h := [dict_of [("Train Preprocessor", VRef 1)];
            dict_of [("OutputDataConfig", VRef 2)];
            dict_of []] in
  (input_template Sample.pipeline = VRef 0 /\
   dict_at h 0 = Some (list_to_map [("Train Preprocessor", VRef 1)]) /\
   field h 1 "OutputDataConfig" = Some (VRef 2) /\ is_dict h 2 /\
   field h 1 "DebugHookConfig" = None) /\
  execute Sample.StepId_value Sample.JOB_NAME_PARAM_NAME Sample.pipeline
    "2019-11-03" (VStr "job7") VNone h
  = Raise (KeyError (KStr "DebugHookConfig")).
Proof.
  intros h.
  assert (Hd : is_dict h 2) by (eexists; reflexivity).
  split; [repeat split; try reflexivity; exact Hd|].
  exact (execute_needs_debug_hook_config Sample.StepId_value
           Sample.JOB_NAME_PARAM_NAME Sample.pipeline "2019-11-03"
           (VStr "job7") 0 (list_to_map [("Train Preprocessor", VRef 1)])
           1 2 h eq_refl eq_refl eq_refl eq_refl Hd eq_refl
           (or_intror (ex_intro _ "job7" eq_refl))).
Defined.

Lemma execute_quotes_job_name_hyperparameter_witness :
  (input_template Sample.pipeline = VRef (place Sample.layout Template) /\
   shape Sample.StepId_value Sample.store Sample.layout /\
   hyperparameters_of Sample.store Sample.layout (VRef 21)) /\
  exists e h',
    execute Sample.StepId_value Sample.JOB_NAME_PARAM_NAME Sample.pipeline
      "2019-11-03" (VStr "job7") (VRef 21) Sample.store = Ok (e, h') /\
    input_of e h' [KStr "Training"; KStr "HyperParameters";
                   KStr "sagemaker_job_name"]
      (VStr (dquote ++ "estimator-job7" ++ dquote)) /\
    field h' 21 "eta" = Some (VStr "0.1").
Proof.
  split; [split; [reflexivity | split; [exact sample_shape | by right]]|].
  destruct (execute_quotes_job_name_hyperparameter Sample.StepId_value
              Sample.JOB_NAME_PARAM_NAME Sample.pipeline "2019-11-03" "job7"
              (VRef 21) Sample.store Sample.layout eq_refl sample_shape
              (or_intror eq_refl))
    as (e & h' & Hrun & Hall).
  apply Forall_cons in Hall as [_ Hall].
  apply Forall_cons in Hall as [(_ & Hquoted & _ & Hkeep) _].
  exists e, h'. split; [exact Hrun|]. split.
  - apply Hquoted. eexists. reflexivity.
  - assert (Hne : "eta" <> Sample.JOB_NAME_PARAM_NAME) by discriminate.
    exact (eq_trans (Hkeep "eta" Hne) eq_refl).
Defined.

Lemma execute_touches_only_its_entries_witness :
  (input_template Sample.pipeline = VRef (place Sample.layout Template) /\
   shape Sample.StepId_value Sample.store Sample.layout /\
   hyperparameters_of Sample.store Sample.layout (VRef 21) /\
   (VStr "job7" = VNone \/ exists j, VStr "job7" = VStr j)) /\
  exists e h',
    execute Sample.StepId_value Sample.JOB_NAME_PARAM_NAME Sample.pipeline
      "2019-11-03" (VStr "job7") (VRef 21) Sample.store = Ok (e, h') /\
    length h' = 27 /\
    h' !! 12 = Sample.store !! 12 /\
    field h' 1 "RoleArn" = Some (VStr "arn:aws:iam::1:role/sm").
Proof.
  assert (Hname : VStr "job7" = VNone \/ exists j, VStr "job7" = VStr j)
    by (right; eauto).
  split;
    [split; [reflexivity | split; [exact sample_shape | split; [by right | done]]]|].
  destruct (execute_touches_only_its_entries Sample.StepId_value
              Sample.JOB_NAME_PARAM_NAME Sample.pipeline "2019-11-03"
              (VStr "job7") (VRef 21) Sample.store Sample.layout eq_refl
              sample_shape (or_intror eq_refl) Hname)
    as (e & h' & Hrun & Hlen & Hother & _ & Hkeys & _).
  exists e, h'. split; [exact Hrun|]. split; [exact Hlen|]. split.
  - apply Hother; [simpl; lia|].
    apply (bool_decide_unpack _). by vm_compute.
  - assert (Hkey : "RoleArn" ∉ written Sample.JOB_NAME_PARAM_NAME
                                 (StepInput TrainPreprocessor))
      by (apply (bool_decide_unpack _); by vm_compute).
    exact (eq_trans (Hkeys (StepInput TrainPreprocessor) "RoleArn" Hkey) eq_refl).
Defined.

Lemma execute_changes_earlier_inputs_witness :
  (input_template Sample.pipeline = VRef (place Sample.layout Template) /\
   shape Sample.StepId_value Sample.store Sample.layout /\
   hyperparameters_of Sample.store Sample.layout (VRef 21)) /\
  exists e1 h1 e2 h2,
    execute Sample.StepId_value Sample.JOB_NAME_PARAM_NAME Sample.pipeline
      "2019-11-03" (VStr "job7") (VRef 21) Sample.store = Ok (e1, h1) /\
    execute Sample.StepId_value Sample.JOB_NAME_PARAM_NAME Sample.pipeline
      "2019-11-04" (VStr "job8") VNone h1 = Ok (e2, h2) /\
    input_of e1 h1 [KStr "Train Preprocessor"; KStr "TrainingJobName"]
      (VStr "preprocessor-job7") /\
    input_of e1 h2 [KStr "Train Preprocessor"; KStr "TrainingJobName"]
      (VStr "preprocessor-job8").
Proof.
  split; [split; [reflexivity | split; [exact sample_shape | by right]]|].
  destruct (execute_changes_earlier_inputs Sample.StepId_value
              Sample.JOB_NAME_PARAM_NAME Sample.pipeline "2019-11-03"
              "2019-11-04" "job7" "job8" (VRef 21) Sample.store Sample.layout
              eq_refl sample_shape (or_intror eq_refl))
    as (e1 & h1 & e2 & h2 & Hrun1 & Hfirst & Hrun2 & _ & Hlater & _).
  exists e1, h1, e2, h2. by repeat split.
Defined.

Lemma init_names_pipeline_witness :
  (sdk_returns Sample.new_PipelineModel Sample.new_Model Sample.step_parameters
     Sample._extract_input_template (Sample.sdk_estimator 1)
     (Sample.sdk_estimator 3) /\
   is_Some (Sample.channels !! "train")) /\
  exists p h',
    __init__ Sample.StepId_value Sample.new_PipelineModel Sample.new_Model
      Sample.step_parameters Sample._extract_input_template "2019-11-03"
      (Sample.sdk_estimator 1) (Sample.sdk_estimator 3)
      (InputsChannels Sample.channels) "bucket" "arn:aws:iam::1:role/sfn" None
      {| kw_compression_type := None; kw_content_type := None;
         kw_pipeline_name := Some EmptyString |} [] = Ok (p, h') /\
    name (workflow p) = "inference-pipeline-2019-11-03".
Proof.
  assert (Htrain : is_Some (Sample.channels !! "train"))
    by (eexists; reflexivity).
  split; [split; [exact sample_sdk_returns | exact Htrain]|].
  destruct (init_names_pipeline Sample.StepId_value Sample.new_PipelineModel
              Sample.new_Model Sample.step_parameters
              Sample._extract_input_template "2019-11-03"
              (Sample.sdk_estimator 1) (Sample.sdk_estimator 3) Sample.channels
              "bucket" "arn:aws:iam::1:role/sfn" None
              {| kw_compression_type := None; kw_content_type := None;
                 kw_pipeline_name := Some EmptyString |} []
              sample_sdk_returns Htrain)
    as (p & h' & Hinit & Hname & _ & Hdefault & _).
  exists p, h'. split; [exact Hinit|].
  rewrite Hname. apply Hdefault. by right.
Defined.

Lemma definition_wires_steps_witness :
  (sdk_returns Sample.new_PipelineModel Sample.new_Model Sample.step_parameters
     Sample._extract_input_template (preprocessor (attrs Sample.pipeline))
     (estimator (attrs Sample.pipeline)) /\
   inputs (attrs Sample.pipeline) = InputsChannels Sample.channels /\
   is_Some (Sample.channels !! "train")) /\
  exists c h' m,
    build_workflow_definition Sample.StepId_value Sample.new_PipelineModel
      Sample.new_Model Sample.step_parameters (attrs Sample.pipeline) []
    = Ok (c, h') /\
    call <$> steps c !! 1
    = Some (ModelStep "Create Preprocessor Model" "ml.m5.large" m "demo") /\
    call <$> steps c !! 4
    = Some (ModelStep "Create Pipeline Model" "ml.m5.large" m "demo").
Proof.
  assert (Htrain : is_Some (Sample.channels !! "train"))
    by (eexists; reflexivity).
  split; [split; [exact sample_sdk_returns | split; [reflexivity | exact Htrain]]|].
  destruct (definition_wires_steps Sample.StepId_value Sample.new_PipelineModel
              Sample.new_Model Sample.step_parameters
              Sample._extract_input_template (attrs Sample.pipeline)
              Sample.channels [] sample_sdk_returns eq_refl Htrain)
    as (c & h' & m & tr & td & Hbuild & _ & Hcalls).
  exists c, h', m. split; [exact Hbuild|].
  rewrite <- !list_lookup_fmap, Hcalls. by split.
Defined.

(** ** Templates on which [execute] raises

    The input template of a real pipeline need not have every entry that
    [execute] subscripts: a training step configured without a debugger
    hook has no ['DebugHookConfig'], an estimator without hyperparameters
    has no ['HyperParameters'].  On such a template a call with a string
    job name raises, and there are no execution inputs. *)

Lemma execute_patches_run_parameters_counterexample :
  execute Sample.StepId_value Sample.JOB_NAME_PARAM_NAME Sample.pipeline
    "2019-11-03" (VStr "job7") VNone Sample.store_without_hyperparameters
  = Raise (KeyError (KStr "HyperParameters")) /\
  ~ exists e h',
      execute Sample.StepId_value Sample.JOB_NAME_PARAM_NAME Sample.pipeline
        "2019-11-03" (VStr "job7") VNone Sample.store_without_hyperparameters
      = Ok (e, h') /\
      execution_name e = VStr "job7".
Proof.
  assert (Hraise :
    execute Sample.StepId_value Sample.JOB_NAME_PARAM_NAME Sample.pipeline
      "2019-11-03" (VStr "job7") VNone Sample.store_without_hyperparameters
    = Raise (KeyError (KStr "HyperParameters"))) by (vm_compute; reflexivity).
  split; [exact Hraise|].
  intros (e & h' & Hrun & _). rewrite Hraise in Hrun. discriminate.
Qed.

Lemma execute_propagates_job_names_counterexample :
  execute Sample.StepId_value Sample.JOB_NAME_PARAM_NAME Sample.pipeline
    "2019-11-03" (VStr "job7") (VRef 21) Sample.store_without_debug_hook
  = Raise (KeyError (KStr "DebugHookConfig")) /\
  ~ exists e h',
      execute Sample.StepId_value Sample.JOB_NAME_PARAM_NAME Sample.pipeline
        "2019-11-03" (VStr "job7") (VRef 21) Sample.store_without_debug_hook
      = Ok (e, h') /\
      input_of e h' [KStr "Deploy"; KStr "EndpointName"] (VStr "job7").
Proof.
  assert (Hraise :
    execute Sample.StepId_value Sample.JOB_NAME_PARAM_NAME Sample.pipeline
      "2019-11-03" (VStr "job7") (VRef 21) Sample.store_without_debug_hook
    = Raise (KeyError (KStr "DebugHookConfig"))) by (vm_compute; reflexivity).
  split; [exact Hraise|].
  intros (e & h' & Hrun & _). rewrite Hraise in Hrun. discriminate.
Qed.

Lemma execute_derives_s3_uris_counterexample :
  execute Sample.StepId_value Sample.JOB_NAME_PARAM_NAME Sample.pipeline
    "2019-11-03" (VStr "job7") VNone Sample.store_without_debug_hook
  = Raise (KeyError (KStr "DebugHookConfig")) /\
  ~ exists e h',
      execute Sample.StepId_value Sample.JOB_NAME_PARAM_NAME Sample.pipeline
        "2019-11-03" (VStr "job7") VNone Sample.store_without_debug_hook
      = Ok (e, h') /\
      input_of e h' [KStr "Create Preprocessor Model"; KStr "PrimaryContainer";
                     KStr "ModelDataUrl"]
        (VStr "s3://bucket/demo/models/preprocessor-job7/output/model.tar.gz").
Proof.
  assert (Hraise :
    execute Sample.StepId_value Sample.JOB_NAME_PARAM_NAME Sample.pipeline
      "2019-11-03" (VStr "job7") VNone Sample.store_without_debug_hook
    = Raise (KeyError (KStr "DebugHookConfig"))) by (vm_compute; reflexivity).
  split; [exact Hraise|].
  intros (e & h' & Hrun & _). rewrite Hraise in Hrun. discriminate.
Qed.

Lemma execute_sets_output_paths_counterexample :
  execute Sample.StepId_value Sample.JOB_NAME_PARAM_NAME Sample.pipeline
    "2019-11-03" VNone VNone Sample.store_without_debug_hook
  = Raise (KeyError (KStr "DebugHookConfig")) /\
  execute Sample.StepId_value Sample.JOB_NAME_PARAM_NAME Sample.pipeline
    "2019-11-03" (VInt 7) VNone Sample.store
  = Raise TypeError /\
  ~ exists e h',
      execute Sample.StepId_value Sample.JOB_NAME_PARAM_NAME Sample.pipeline
        "2019-11-03" VNone VNone Sample.store_without_debug_hook
      = Ok (e, h') /\
      input_of e h' [KStr "Train Preprocessor"; KStr "DebugHookConfig";
                     KStr "S3OutputPath"]
        (VStr "s3://bucket/demo/models/debug").
Proof.
  assert (Hraise :
    execute Sample.StepId_value Sample.JOB_NAME_PARAM_NAME Sample.pipeline
      "2019-11-03" VNone VNone Sample.store_without_debug_hook
    = Raise (KeyError (KStr "DebugHookConfig"))) by (vm_compute; reflexivity).
  split; [exact Hraise|]. split; [vm_compute; reflexivity|].
  intros (e & h' & Hrun & _). rewrite Hraise in Hrun. discriminate.
Qed.

Lemma execute_configures_pipeline_model_counterexample :
  execute Sample.StepId_value Sample.JOB_NAME_PARAM_NAME Sample.pipeline
    "2019-11-03" (VStr "job7") VNone Sample.store_without_hyperparameters
  = Raise (KeyError (KStr "HyperParameters")) /\
  ~ exists e h' url,
      execute Sample.StepId_value Sample.JOB_NAME_PARAM_NAME Sample.pipeline
        "2019-11-03" (VStr "job7") VNone Sample.store_without_hyperparameters
      = Ok (e, h') /\
      input_of e h' [KStr "Create Pipeline Model"; KStr "Containers"; KIdx 1;
                     KStr "ModelDataUrl"] url.
Proof.
  assert (Hraise :
    execute Sample.StepId_value Sample.JOB_NAME_PARAM_NAME Sample.pipeline
      "2019-11-03" (VStr "job7") VNone Sample.store_without_hyperparameters
    = Raise (KeyError (KStr "HyperParameters"))) by (vm_compute; reflexivity).
  split; [exact Hraise|].
  intros (e & h' & url & Hrun & _). rewrite Hraise in Hrun. discriminate.
Qed.
